(** * pybind11_protobuf: fast_cpp_proto_casters.h

    A shallow embedding of the type casters of
    [pybind11_protobuf/fast_cpp_proto_casters.h] and the properties of
    the conversion engine that follow from the code.

    The native side is a heap of protocol buffer messages addressed by
    pointers; the python side is a heap of python objects addressed by
    handles.  Every function of the header is a computation over that
    world which may return, throw a pybind11 exception, or dereference
    a pointer that is not live. *)

From stdpp Require Import gmap strings list.

Local Open Scope string_scope.

(** ** google::protobuf::Message, as far as the casters look at it *)

Module protobuf.

(** [GetReflection] is the address of the Reflection instance of the
    message's type in its pool: the casters compare it with [!=] on
    pointers.  [full_name] is [GetDescriptor()->full_name()];
    [contents] stands for the field data. *)
Record Message : Type := mkMessage {
  GetReflection : positive;
  full_name : string;
  contents : string;
}.

(** [m.New()]: a new, cleared message of the same dynamic type. *)
Definition New (m : Message) : Message :=
  {| GetReflection := GetReflection m;
     full_name := full_name m;
     contents := EmptyString |}.

(** [dst.CopyFrom(src)] and the generated [operator=], for two
    messages of one type: the field data is replaced. *)
Definition CopyFrom (dst src : Message) : Message :=
  {| GetReflection := GetReflection dst;
     full_name := full_name dst;
     contents := contents src |}.

#[global] Instance Message_eq_dec : EqDecision Message.
Proof. solve_decision. Defined.

End protobuf.
Export protobuf.

(** ** pybind11: handles, policies, exceptions *)

(** A native pointer that is not null. [option ptr] is a pointer that
    may be [nullptr]. *)
Abbreviation ptr := positive (only parsing).

(** [pybind11::handle]: [Py_None] or a reference to a python object. *)
Inductive handle : Type :=
| Py_None
| PyObj (addr : positive).

#[global] Instance handle_eq_dec : EqDecision handle.
Proof. solve_decision. Defined.

Definition is_none (h : handle) : bool :=
  match h with Py_None => true | PyObj _ => false end.

(** [pybind11::return_value_policy]. *)
Inductive return_value_policy : Type :=
| automatic
| automatic_reference
| take_ownership
| copy
| move
| reference
| reference_internal.

#[global] Instance return_value_policy_eq_dec : EqDecision return_value_policy.
Proof. solve_decision. Defined.

(** The enumerator's identifier, as a caller writes it after
    [return_value_policy::]. *)
Definition policy_name (p : return_value_policy) : string :=
  match p with
  | automatic => "automatic"
  | automatic_reference => "automatic_reference"
  | take_ownership => "take_ownership"
  | copy => "copy"
  | move => "move"
  | reference => "reference"
  | reference_internal => "reference_internal"
  end.

Inductive exn : Type :=
| type_error (what : string)
| reference_cast_error.

(** ** The world the casters run in *)

(** What python holds after a native→python cast: a wrapper that
    aliases native memory (with the parent it keeps alive, if any), or
    an object with a message of its own. *)
Inductive PyProto : Type :=
| PyAlias (target : ptr) (keep_alive : option handle)
| PyCopy (m : Message).

(** The calls that allocate, release or copy native messages, in the
    order the casters make them. *)
Inductive event : Type :=
| EvNew (p : ptr)
| EvDelete (p : ptr)
| EvCopyFrom (dst src : ptr)
| EvCopyToCProto (src : handle) (dst : ptr).

#[global] Instance event_eq_dec : EqDecision event.
Proof. solve_decision. Defined.

Record world : Type := mkWorld {
  heap : gmap positive Message;
  pyheap : gmap positive PyProto;
  trace : list event;
}.

Inductive result (A : Type) : Type :=
| Ok (a : A)
| Throw (e : exn)
| Fault.
Arguments Ok {A} a.
Arguments Throw {A} e.
Arguments Fault {A}.

Definition M (A : Type) : Type := world → result A * world.

Definition ret {A} (a : A) : M A := λ w, (Ok a, w).

Definition bind {A B} (c : M A) (k : A → M B) : M B :=
  λ w, match c w with
       | (Ok a, w') => k a w'
       | (Throw e, w') => (Throw e, w')
       | (Fault, w') => (Fault, w')
       end.

Definition throw {A} (e : exn) : M A := λ w, (Throw e, w).

#[global] Instance M_ret : MRet M := @ret.
#[global] Instance M_bind : MBind M := λ A B k c, bind c k.

Definition log (e : event) : M unit :=
  λ w, (Ok tt, {| heap := heap w; pyheap := pyheap w; trace := trace w ++ [e] |}).

(** [*p] for reading: a pointer that is not live has no value. *)
Definition deref (p : ptr) : M Message :=
  λ w, match heap w !! p with
       | Some m => (Ok m, w)
       | None => (Fault, w)
       end.

Definition store (p : ptr) (m : Message) : M unit :=
  λ w, match heap w !! p with
       | Some _ => (Ok tt, {| heap := <[p := m]> (heap w); pyheap := pyheap w; trace := trace w |})
       | None => (Fault, w)
       end.

(** [new T(...)]: an address that is not live, holding [m]. *)
Definition new (m : Message) : M ptr :=
  λ w, let p := fresh (dom (heap w)) in
       (Ok p, {| heap := <[p := m]> (heap w); pyheap := pyheap w;
                 trace := trace w ++ [EvNew p] |}).

(** [delete p]. *)
Definition delete_ptr (p : ptr) : M unit :=
  λ w, match heap w !! p with
       | Some _ => (Ok tt, {| heap := delete p (heap w); pyheap := pyheap w;
                              trace := trace w ++ [EvDelete p] |})
       | None => (Fault, w)
       end.

(** Destruction of a [std::unique_ptr]: deletes what it owns. *)
Definition unique_ptr_reset (u : option ptr) : M unit :=
  match u with
  | Some p => delete_ptr p
  | None => ret tt
  end.

(** [*dst = *src] and [dst->CopyFrom( *src)]. *)
Definition copy_assign (dst src : ptr) : M unit :=
  s ← deref src;
  d ← deref dst;
  log (EvCopyFrom dst src);;
  store dst (CopyFrom d s).

(** ** proto_cast_util.h

    The header calls these functions of [pybind11_protobuf/proto_cast_util.h];
    they are taken as given.  [PyProtoCopyToCProto] maps the target
    message to what it holds afterwards, with the flag it returns;
    [AllocateCProtoByName] yields the message to allocate for a name of
    the default pool. *)
Record proto_cast_util : Type := {
  PyProtoGetCppMessagePointer : handle → option ptr;
  PyProtoDescriptorName : handle → option string;
  PyProtoCopyToCProto : handle → Message → bool * Message;
  AllocateCProtoByName : string → option Message;
  GenericFastCppProtoCast : ptr → return_value_policy → handle → bool → M handle;
  GenericProtoCast : ptr → return_value_policy → handle → bool → M handle;
}.

(** A generated message class, the template argument [ProtoType]. *)
Record ProtoType : Type := {
  default_instance : Message;
}.

(** [ProtoType::descriptor()->full_name()]. *)
Definition descriptor_full_name (T : ProtoType) : string :=
  full_name (default_instance T).

(** The two data members of [proto_caster_load_impl]:
    [const ProtoType *value] and [std::unique_ptr<ProtoType> owned]. *)
Record Loader : Type := mkLoader {
  value : option ptr;
  owned : option ptr;
}.

#[global] Instance Loader_eq_dec : EqDecision Loader.
Proof. solve_decision. Defined.

(** A default-constructed loader: [owned] is null, [value] has no
    initializer and holds whatever [garbage] was there. *)
Definition default_constructed (garbage : option ptr) : Loader :=
  {| value := garbage; owned := None |}.

(** The Empty state: null value, no owned copy. *)
Definition Empty : Loader := {| value := None; owned := None |}.

Section calls.
Variable api : proto_cast_util.

(** The call [PyProtoCopyToCProto(src, dst)]. *)
Definition call_PyProtoCopyToCProto (src : handle) (dst : ptr) : M bool :=
  d ← deref dst;
  log (EvCopyToCProto src dst);;
  store dst (PyProtoCopyToCProto api src d).2;;
  mret (PyProtoCopyToCProto api src d).1.

(** The call [AllocateCProtoByName(name)]: a [unique_ptr] to a new
    message, or null. *)
Definition call_AllocateCProtoByName (name : string) : M (option ptr) :=
  match AllocateCProtoByName api name with
  | Some m => p ← new m; mret (Some p)
  | None => mret None
  end.

(** [u = std::move(fresh)] on a [unique_ptr] member: what [u] owned
    is deleted. *)
Definition unique_ptr_assign (u fresh : option ptr) : M (option ptr) :=
  unique_ptr_reset u;;
  mret fresh.
End calls.

(** ** proto_caster_load_impl<ProtoType> *)

Module proto_caster_load_impl.
Section with_ProtoType.
Variable api : proto_cast_util.
Variable T : ProtoType.

(** Lines 118-128: the incoming object is not a fast_cpp_proto. *)
Definition load_fallback (self : Loader) (src : handle) : M (bool * Loader) :=
  let descriptor_name := PyProtoDescriptorName api src in
  match descriptor_name with
  | None => mret (false, self)
  | Some name =>
      if decide (name ≠ descriptor_full_name T) then mret (false, self)
      else
        p ← new (New (default_instance T));
        o ← unique_ptr_assign (owned self) (Some p);
        ok ← call_PyProtoCopyToCProto api src p;
        mret (ok, {| value := Some p; owned := o |})
  end.

Definition load (self : Loader) (src : handle) (convert : bool)
  : M (bool * Loader) :=
  if is_none src then
    mret (true, {| value := None; owned := owned self |})
  else
    match PyProtoGetCppMessagePointer api src with
    | Some message =>
        m ← deref message;
        if decide (GetReflection (default_instance T) ≠ GetReflection m)
        then mret (false, self)
        else mret (true, {| value := Some message; owned := owned self |})
    | None => load_fallback self src
    end.

Definition as_unique_ptr (self : Loader) : M (option ptr * Loader) :=
  match value self with
  | None => mret (None, self)
  | Some v =>
      match owned self with
      | Some o => mret (Some o, {| value := Some v; owned := None |})
      | None =>
          m ← deref v;
          p ← new (New m);
          copy_assign p v;;
          mret (Some p, {| value := Some v; owned := None |})
      end
  end.
End with_ProtoType.
End proto_caster_load_impl.

(** ** proto_caster_load_impl<::google::protobuf::Message> *)

Module proto_caster_load_impl_Message.
Section with_api.
Variable api : proto_cast_util.

Definition load (self : Loader) (src : handle) (convert : bool)
  : M (bool * Loader) :=
  if is_none src then
    mret (true, {| value := None; owned := owned self |})
  else
    match PyProtoGetCppMessagePointer api src with
    | Some message =>
        mret (true, {| value := Some message; owned := owned self |})
    | None =>
        let descriptor_name := PyProtoDescriptorName api src in
        match descriptor_name with
        | None => mret (false, {| value := None; owned := owned self |})
        | Some name =>
            fresh ← call_AllocateCProtoByName api name;
            o ← unique_ptr_assign (owned self) fresh;
            match o with
            | None => mret (false, {| value := None; owned := None |})
            | Some p =>
                ok ← call_PyProtoCopyToCProto api src p;
                mret (ok, {| value := Some p; owned := Some p |})
            end
        end
    end.

Definition as_unique_ptr (self : Loader) : M (option ptr * Loader) :=
  match value self with
  | None => mret (None, self)
  | Some v =>
      match owned self with
      | Some o => mret (Some o, {| value := Some v; owned := None |})
      | None =>
          m ← deref v;
          p ← new (New m);
          copy_assign p v;;
          mret (Some p, {| value := Some v; owned := None |})
      end
  end.
End with_api.
End proto_caster_load_impl_Message.

(** ** Cast implementations: native → python *)

(** [none().release()]. *)
Definition none_release : M handle := mret Py_None.

(** Runs [body], then the destructor of a local [unique_ptr] holding
    [u], whether [body] returned or threw. *)
Definition with_unique_ptr {A} (u : option ptr) (body : M A) : M A :=
  λ w, match body w with
       | (r, w') =>
           match unique_ptr_reset u w' with
           | (Ok _, w'') => (r, w'')
           | (_, w'') => (Fault, w'')
           end
       end.

Module fast_cpp_cast_impl.
Definition what : string :=
  "Cannot return a const reference to a ::google::protobuf::Message derived "
  ++ "type.  Consider setting return_value_policy::copy in the "
  ++ "pybind11 def().".

Definition cast_impl (api : proto_cast_util) (src : option ptr)
    (policy : return_value_policy) (parent : handle) (is_const : bool)
  : M handle :=
  match src with
  | None => none_release
  | Some p =>
      if is_const && (bool_decide (policy = reference)
                      || bool_decide (policy = reference_internal))
      then throw (type_error what)
      else GenericFastCppProtoCast api p policy parent is_const
  end.
End fast_cpp_cast_impl.

Module native_cast_impl.
Definition cast_impl (api : proto_cast_util) (src : option ptr)
    (policy : return_value_policy) (parent : handle) (is_const : bool)
  : M handle :=
  match src with
  | None => none_release
  | Some p => GenericProtoCast api p copy parent false
  end.
End native_cast_impl.

(** ** proto_caster<ProtoType, CastBase> *)

Module proto_caster.
Section with_CastBase.
(** [CastBase::cast_impl]. *)
Variable cast_impl :
  option ptr → return_value_policy → handle → bool → M handle.

(** The first statement of the pointer and reference overloads. *)
Definition resolve_automatic (policy : return_value_policy)
  : return_value_policy :=
  if bool_decide (policy = automatic)
     || bool_decide (policy = automatic_reference)
  then copy else policy.

(** [cast(ProtoType &&src, policy, parent)]. *)
Definition cast_rvalue (src : ptr) (policy : return_value_policy)
    (parent : handle) : M handle :=
  cast_impl (Some src) copy parent false.

(** [cast(const ProtoType *src, policy, parent)]. *)
Definition cast_const_ptr (src : option ptr) (policy : return_value_policy)
    (parent : handle) : M handle :=
  let policy := resolve_automatic policy in
  cast_impl src policy parent true.

(** [cast(ProtoType *src, policy, parent)]. *)
Definition cast_ptr (src : option ptr) (policy : return_value_policy)
    (parent : handle) : M handle :=
  let policy := resolve_automatic policy in
  if bool_decide (policy = take_ownership) then
    with_unique_ptr src (cast_impl src copy parent false)
  else
    with_unique_ptr None (cast_impl src policy parent false).

(** [cast(ProtoType const &src, policy, parent)]. *)
Definition cast_const_ref (src : ptr) (policy : return_value_policy)
    (parent : handle) : M handle :=
  cast_impl (Some src) copy parent true.

(** [cast(ProtoType &src, policy, parent)]. *)
Definition cast_ref (src : ptr) (policy : return_value_policy)
    (parent : handle) : M handle :=
  let policy := resolve_automatic policy in
  cast_impl (Some src) policy parent false.

(** [operator const ProtoType *()]. *)
Definition cast_op_const_ptr (self : Loader) : option ptr := value self.

(** [operator const ProtoType &()]. *)
Definition cast_op_const_ref (self : Loader) : M ptr :=
  match value self with
  | None => throw reference_cast_error
  | Some v => mret v
  end.

(** [operator ProtoType &&() &&]: the owned copy is made if there is
    none, and stays with the caster. *)
Definition cast_op_rvalue (self : Loader) : M (ptr * Loader) :=
  match value self with
  | None => throw reference_cast_error
  | Some v =>
      match owned self with
      | Some o => mret (o, self)
      | None =>
          m ← deref v;
          p ← new (New m);
          copy_assign p v;;
          mret (p, {| value := Some v; owned := Some p |})
      end
  end.
End with_CastBase.
End proto_caster.

(** [type_caster<ProtoType>] derives from
    [proto_caster<ProtoType, fast_cpp_cast_impl>]. *)
Module type_caster.
Section with_api.
Variable api : proto_cast_util.

Definition cast_rvalue := proto_caster.cast_rvalue (fast_cpp_cast_impl.cast_impl api).
Definition cast_const_ptr := proto_caster.cast_const_ptr (fast_cpp_cast_impl.cast_impl api).
Definition cast_ptr := proto_caster.cast_ptr (fast_cpp_cast_impl.cast_impl api).
Definition cast_const_ref := proto_caster.cast_const_ref (fast_cpp_cast_impl.cast_impl api).
Definition cast_ref := proto_caster.cast_ref (fast_cpp_cast_impl.cast_impl api).
End with_api.
End type_caster.

(** ** Holder casters *)

(** [Base base; ... ] of the two [load] members: a local loader whose
    destructor runs when [load] returns. *)
Section holder_load.
Variable api : proto_cast_util.
Variable T : ProtoType.
(** What the uninitialized [value] of the local loader holds. *)
Variable garbage : option ptr.

(** [load] of [move_only_holder_caster] and of
    [copyable_holder_caster]: the new holder, when loading succeeds. *)
Definition holder_load (src : handle) (convert : bool)
  : M (bool * option (option ptr)) :=
  r ← proto_caster_load_impl.load api T (default_constructed garbage) src convert;
  if negb r.1 then
    unique_ptr_reset (owned r.2);;
    mret (false, None)
  else
    u ← proto_caster_load_impl.as_unique_ptr r.2;
    unique_ptr_reset (owned u.2);;
    mret (true, Some u.1).
End holder_load.

(** The same [load], for a holder of [::google::protobuf::Message]: the
    local loader is the specialization. *)
Definition holder_load_Message (api : proto_cast_util) (garbage : option ptr)
    (src : handle) (convert : bool) : M (bool * option (option ptr)) :=
  r ← proto_caster_load_impl_Message.load api (default_constructed garbage) src convert;
  if negb r.1 then
    unique_ptr_reset (owned r.2);;
    mret (false, None)
  else
    u ← proto_caster_load_impl_Message.as_unique_ptr r.2;
    unique_ptr_reset (owned u.2);;
    mret (true, Some u.1).

Module move_only_holder_caster.
(** [cast(HolderType &&src, return_value_policy, handle p)]; the
    holder is given by the pointer it holds and [const_element] says
    whether its element type is const.  [std::move( *ptr)] is a
    [ProtoType &&] for an element type that is not const and selects
    the rvalue overload; for a const element type it is a
    [const ProtoType &&], which only the [ProtoType const &] overload
    accepts. *)
Definition cast (api : proto_cast_util) (const_element : bool)
    (src : option ptr) (policy : return_value_policy) (p : handle)
  : M handle :=
  match src with
  | None => none_release
  | Some ptr =>
      if const_element then type_caster.cast_const_ref api ptr move p
      else type_caster.cast_rvalue api ptr move p
  end.

Definition load := holder_load.
End move_only_holder_caster.

Module copyable_holder_caster.
(** [cast(const HolderType &src, return_value_policy, handle p)]:
    [*ptr] is a [const ProtoType &]. *)
Definition cast (api : proto_cast_util) (src : option ptr)
    (policy : return_value_policy) (p : handle) : M handle :=
  match src with
  | None => none_release
  | Some ptr => type_caster.cast_const_ref api ptr copy p
  end.

Definition load := holder_load.
End copyable_holder_caster.

(** ** The python side of a cast *)

(** A new python object: a handle that is not in use. *)
Definition py_new (o : PyProto) : M handle :=
  λ w, let a := fresh (dom (pyheap w)) in
       (Ok (PyObj a), {| heap := heap w; pyheap := <[a := o]> (pyheap w);
                         trace := trace w |}).

(** Modelled from the spec: [GenericFastCppProtoCast] of
    proto_cast_util, which is not part of this header.  For the
    policies [reference] and [reference_internal] the result is a
    wrapper that aliases the memory of [src], with a keep-alive edge to
    [parent] for [reference_internal]; every other policy produces an
    independent python object populated by a value copy of [*src]. *)
Definition spec_GenericFastCppProtoCast (src : ptr)
    (policy : return_value_policy) (parent : handle) (is_const : bool)
  : M handle :=
  match policy with
  | reference => py_new (PyAlias src None)
  | reference_internal => py_new (PyAlias src (Some parent))
  | _ => m ← deref src; py_new (PyCopy m)
  end.

Definition set_contents (c : string) (m : Message) : Message :=
  {| GetReflection := GetReflection m; full_name := full_name m; contents := c |}.

(** Modelled from the spec: the python runtime reading the message
    behind a handle, through the alias when the object is one. *)
Definition py_read (h : handle) (w : world) : option Message :=
  match h with
  | Py_None => None
  | PyObj a =>
      match pyheap w !! a with
      | Some (PyCopy m) => Some m
      | Some (PyAlias p _) => heap w !! p
      | None => None
      end
  end.

(** Modelled from the spec: the python runtime mutating the message
    behind a handle; a mutation of an alias lands in native memory. *)
Definition py_write (h : handle) (c : string) (w : world) : world :=
  match h with
  | Py_None => w
  | PyObj a =>
      match pyheap w !! a with
      | Some (PyCopy m) =>
          {| heap := heap w;
             pyheap := <[a := PyCopy (set_contents c m)]> (pyheap w);
             trace := trace w |}
      | Some (PyAlias p _) =>
          {| heap := alter (set_contents c) p (heap w);
             pyheap := pyheap w;
             trace := trace w |}
      | None => w
      end
  end.

(** Native code mutating [*p]. *)
Definition native_write (p : ptr) (c : string) (w : world) : world :=
  {| heap := alter (set_contents c) p (heap w);
     pyheap := pyheap w;
     trace := trace w |}.

(** Whether the text [needle] occurs in [s]. *)
Definition mentions (needle s : string) : bool :=
  match String.index 0 needle s with
  | Some _ => true
  | None => false
  end.

(** ** Concrete inputs *)

Module sample.
(** Two message types named pkg.A, generated in different pools, and
    a type pkg.B. *)
Definition A : ProtoType :=
  {| default_instance := mkMessage 10 "pkg.A" EmptyString |}.
Definition A_other_pool : Message := mkMessage 11 "pkg.A" "x=1".
Definition a1 : Message := mkMessage 10 "pkg.A" "x=1".
Definition b1 : Message := mkMessage 20 "pkg.B" "y=2".

(** A world with [a1] at address 1, [A_other_pool] at 2, [b1] at 3. *)
Definition w0 : world :=
  {| heap := <[1%positive := a1]> (<[2%positive := A_other_pool]>
               (<[3%positive := b1]> ∅));
     pyheap := ∅;
     trace := [] |}.

(** Handle 1 wraps the native message at 1, handle 2 the one at 2;
    handles 3 and 4 are python-only messages pkg.A and pkg.B, handle
    5 one of a type the default pool does not have, handle 6 a
    pkg.A whose serialized form does not parse, and any other handle
    is not a message. *)
Definition api : proto_cast_util :=
  {| PyProtoGetCppMessagePointer := λ h,
       match h with
       | PyObj 1 => Some 1%positive
       | PyObj 2 => Some 2%positive
       | _ => None
       end;
     PyProtoDescriptorName := λ h,
       match h with
       | PyObj 1 | PyObj 2 | PyObj 3 | PyObj 6 => Some "pkg.A"
       | PyObj 4 => Some "pkg.B"
       | PyObj 5 => Some "pkg.Unregistered"
       | _ => None
       end;
     PyProtoCopyToCProto := λ h m,
       match h with
       | PyObj 3 => (true, set_contents "x=7" m)
       | PyObj 4 => (true, set_contents "y=8" m)
       | PyObj 6 => (false, set_contents "x=" m)
       | _ => (false, m)
       end;
     AllocateCProtoByName := λ n,
       if decide (n = "pkg.A") then Some (mkMessage 10 "pkg.A" EmptyString)
       else if decide (n = "pkg.B") then Some (mkMessage 20 "pkg.B" EmptyString)
       else None;
     GenericFastCppProtoCast := spec_GenericFastCppProtoCast;
     GenericProtoCast := spec_GenericFastCppProtoCast |}.
End sample.

(** ** Auxiliary definitions for the statements *)

(** The world after [new m] followed by the events [evs]. *)
Definition allocated (w : world) (m : Message) (evs : list event) : world :=
  {| heap := <[fresh (dom (heap w)) := m]> (heap w);
     pyheap := pyheap w;
     trace := trace w ++ EvNew (fresh (dom (heap w))) :: evs |}.

(** Two calls of [as_unique_ptr] in a row on one loader; the results of
    the first and of the second. *)
Definition as_unique_ptr_twice (self : Loader) : M (option ptr * option ptr) :=
  r1 ← proto_caster_load_impl.as_unique_ptr self;
  r2 ← proto_caster_load_impl.as_unique_ptr r1.2;
  mret (r1.1, r2.1).

(** Unfolds the monad so that a computation steps by rewriting. *)
Ltac run :=
  unfold mbind, M_bind, bind, mret, M_ret, ret, throw, none_release,
    with_unique_ptr, unique_ptr_assign, unique_ptr_reset in *.

Create HintDb casters.

(** [w'] keeps what [w] has: the python heap is the same and every
    native message that is live in [w] is live and unchanged in [w']. *)
Definition preserves (w w' : world) : Prop :=
  pyheap w' = pyheap w
  ∧ ∀ (p : ptr) (m : Message), heap w !! p = Some m → heap w' !! p = Some m.

(** * Properties *)

Lemma deref_live p m w : heap w !! p = Some m → deref p w = (Ok m, w).
Proof. intros H. unfold deref. by rewrite H. Qed.

Lemma deref_dangling p w : heap w !! p = None → deref p w = (Fault, w).
Proof. intros H. unfold deref. by rewrite H. Qed.

Lemma new_fresh w : fresh (dom (heap w)) ∉ dom (heap w).
Proof. apply is_fresh. Qed.

Lemma new_not_live w p : is_Some (heap w !! p) → fresh (dom (heap w)) ≠ p.
Proof.
  intros Hlive Heq. apply (new_fresh w). rewrite Heq.
  by apply elem_of_dom.
Qed.

Lemma CopyFrom_New m : CopyFrom (New m) m = m.
Proof. by destruct m. Qed.

#[export] Hint Resolve deref_live new_fresh new_not_live : casters.

Lemma resolve_automatic_reference policy :
  policy = reference ∨ policy = reference_internal →
  proto_caster.resolve_automatic policy = policy.
Proof. by intros [-> | ->]. Qed.

(** ** Loading *)

Section load_properties.
Variable api : proto_cast_util.
Variable T : ProtoType.
Implicit Types (self : Loader) (src : handle) (w : world).

Lemma load_none self src convert w :
  is_none src = true →
  proto_caster_load_impl.load api T self src convert w
  = (Ok (true, {| value := None; owned := owned self |}), w).
Proof. intros H. unfold proto_caster_load_impl.load. by rewrite H. Qed.

Lemma load_Message_none self src convert w :
  is_none src = true →
  proto_caster_load_impl_Message.load api self src convert w
  = (Ok (true, {| value := None; owned := owned self |}), w).
Proof. intros H. unfold proto_caster_load_impl_Message.load. by rewrite H. Qed.

(** A pointer of the expected reflection is borrowed as it is. *)
Lemma load_alias self src convert w p m :
  is_none src = false →
  PyProtoGetCppMessagePointer api src = Some p →
  heap w !! p = Some m →
  GetReflection m = GetReflection (default_instance T) →
  proto_caster_load_impl.load api T self src convert w
  = (Ok (true, {| value := Some p; owned := owned self |}), w).
Proof.
  intros Hn Hp Hm Hr. unfold proto_caster_load_impl.load.
  rewrite Hn, Hp. run. rewrite (deref_live _ _ _ Hm).
  by rewrite decide_False by (rewrite Hr; auto).
Qed.

(** A pointer of another reflection ends the load. *)
Lemma load_reflection_mismatch self src convert w p m :
  is_none src = false →
  PyProtoGetCppMessagePointer api src = Some p →
  heap w !! p = Some m →
  GetReflection m ≠ GetReflection (default_instance T) →
  proto_caster_load_impl.load api T self src convert w = (Ok (false, self), w).
Proof.
  intros Hn Hp Hm Hr. unfold proto_caster_load_impl.load.
  rewrite Hn, Hp. run. rewrite (deref_live _ _ _ Hm).
  by rewrite decide_True by auto.
Qed.

Lemma load_miss self src convert w :
  is_none src = false →
  PyProtoGetCppMessagePointer api src = None →
  proto_caster_load_impl.load api T self src convert w
  = proto_caster_load_impl.load_fallback api T self src w.
Proof. intros Hn Hp. unfold proto_caster_load_impl.load. by rewrite Hn, Hp. Qed.

Lemma load_fallback_name_absent self src w :
  PyProtoDescriptorName api src = None →
  proto_caster_load_impl.load_fallback api T self src w = (Ok (false, self), w).
Proof. intros H. unfold proto_caster_load_impl.load_fallback. by rewrite H. Qed.

Lemma load_fallback_name_differs self src w name :
  PyProtoDescriptorName api src = Some name →
  name ≠ descriptor_full_name T →
  proto_caster_load_impl.load_fallback api T self src w = (Ok (false, self), w).
Proof.
  intros H Hne. unfold proto_caster_load_impl.load_fallback. rewrite H.
  by rewrite decide_True by done.
Qed.
End load_properties.

(** A null pointer casts to None on every path. *)
Lemma cast_null api policy parent is_const w :
  fast_cpp_cast_impl.cast_impl api None policy parent is_const w = (Ok Py_None, w)
  ∧ native_cast_impl.cast_impl api None policy parent is_const w = (Ok Py_None, w)
  ∧ type_caster.cast_const_ptr api None policy parent w = (Ok Py_None, w)
  ∧ type_caster.cast_ptr api None policy parent w = (Ok Py_None, w).
Proof.
  repeat split; try done.
  unfold type_caster.cast_ptr, proto_caster.cast_ptr.
  by case_bool_decide.
Qed.

(** C5. Null round trip: loading Python None into a loader that owns
    nothing returns true and leaves it Empty (null value, no owned
    copy), for the exact-type loader and for the Message loader alike,
    without touching the world; casting a null native pointer gives
    None whatever the policy and constness, through [cast_impl] of
    both cast bases and through the two pointer overloads of [cast]. *)
Theorem null_round_trip (api : proto_cast_util) (T : ProtoType)
    (self : Loader) (src : handle) (convert : bool) (w : world)
    (policy : return_value_policy) (parent : handle) (is_const : bool) :
  is_none src = true →
  owned self = None →
  proto_caster_load_impl.load api T self src convert w = (Ok (true, Empty), w)
  ∧ proto_caster_load_impl_Message.load api self src convert w = (Ok (true, Empty), w)
  ∧ fast_cpp_cast_impl.cast_impl api None policy parent is_const w = (Ok Py_None, w)
  ∧ native_cast_impl.cast_impl api None policy parent is_const w = (Ok Py_None, w)
  ∧ type_caster.cast_const_ptr api None policy parent w = (Ok Py_None, w)
  ∧ type_caster.cast_ptr api None policy parent w = (Ok Py_None, w).
Proof.
  intros Hn Ho.
  split; [by rewrite load_none, Ho|].
  split; [by rewrite load_Message_none, Ho|].
  apply cast_null.
Qed.

Lemma null_round_trip_witness :
  proto_caster_load_impl.load sample.api sample.A
    (default_constructed (Some 9%positive)) Py_None false sample.w0
  = (Ok (true, Empty), sample.w0)
  ∧ type_caster.cast_ptr sample.api None take_ownership (PyObj 1) sample.w0
    = (Ok Py_None, sample.w0).
Proof.
  pose proof (null_round_trip sample.api sample.A
                (default_constructed (Some 9%positive)) Py_None false
                sample.w0 take_ownership (PyObj 1) true eq_refl eq_refl) as H.
  split; [apply H | apply H].
Defined.

(** C7, at a concrete input.  Handle 4 is a python-only message that
    reports the type name pkg.B, and the loader expects pkg.A.  The
    loader is a default-constructed one whose [value] member, which
    has no initializer, happens to hold the address 9.  [load] returns
    false and writes nothing, so [value] still holds that address: the
    state is not Empty. *)
Lemma mismatch_keeps_uninitialized_value :
  is_none (PyObj 4) = false
  ∧ PyProtoGetCppMessagePointer sample.api (PyObj 4) = None
  ∧ PyProtoDescriptorName sample.api (PyObj 4) = Some "pkg.B"
  ∧ "pkg.B" ≠ descriptor_full_name sample.A
  ∧ proto_caster_load_impl.load sample.api sample.A
      (default_constructed (Some 9%positive)) (PyObj 4) false sample.w0
    = (Ok (false, {| value := Some 9%positive; owned := None |}), sample.w0)
  ∧ {| value := Some 9%positive; owned := None |} ≠ Empty.
Proof. repeat split; try reflexivity; discriminate. Qed.

(** C7, amended.  When the handle is not None, is not backed by a
    compatible native message (there is no native pointer, or the
    pointer is to a live message of another reflection) and its
    reported type name is absent or differs from the full name of the
    expected descriptor, the exact-type [load] returns false by a
    normal return (nothing is thrown), writes neither data member and
    leaves the world as it was, so no message is allocated.  The
    loader state is therefore the one it had before the call: an Empty
    loader is left Empty, and a default-constructed loader keeps
    whatever its uninitialized [value] held. *)
Theorem exact_type_mismatch_rejection (api : proto_cast_util) (T : ProtoType)
    (self : Loader) (src : handle) (convert : bool) (w : world) :
  is_none src = false →
  (PyProtoGetCppMessagePointer api src = None
   ∨ ∃ p m, PyProtoGetCppMessagePointer api src = Some p
            ∧ heap w !! p = Some m
            ∧ GetReflection m ≠ GetReflection (default_instance T)) →
  (PyProtoDescriptorName api src = None
   ∨ ∃ name, PyProtoDescriptorName api src = Some name
             ∧ name ≠ descriptor_full_name T) →
  proto_caster_load_impl.load api T self src convert w = (Ok (false, self), w)
  ∧ proto_caster_load_impl.load api T Empty src convert w = (Ok (false, Empty), w)
  ∧ ∀ garbage,
      proto_caster_load_impl.load api T (default_constructed garbage) src
        convert w
      = (Ok (false, {| value := garbage; owned := None |}), w).
Proof.
  intros Hn Hptr Hname.
  assert (∀ st, proto_caster_load_impl.load api T st src convert w
                = (Ok (false, st), w)) as Hall.
  { intros st. destruct Hptr as [Hp | (p & m & Hp & Hm & Hr)].
    - rewrite load_miss by done.
      destruct Hname as [Habsent | (name & Hsome & Hne)].
      + by rewrite load_fallback_name_absent.
      + by rewrite (load_fallback_name_differs _ _ _ _ _ name).
    - by rewrite (load_reflection_mismatch api T st src convert w p m). }
  split; [apply Hall|]. split; [apply Hall|]. intros garbage. apply Hall.
Qed.

Lemma exact_type_mismatch_rejection_witness :
  proto_caster_load_impl.load sample.api sample.A Empty (PyObj 4) false sample.w0
  = (Ok (false, Empty), sample.w0)
  ∧ proto_caster_load_impl.load sample.api sample.A
      (default_constructed (Some 9%positive)) (PyObj 4) false sample.w0
    = (Ok (false, {| value := Some 9%positive; owned := None |}), sample.w0).
Proof.
  assert (PyProtoDescriptorName sample.api (PyObj 4) = None
          ∨ ∃ name, PyProtoDescriptorName sample.api (PyObj 4) = Some name
                    ∧ name ≠ descriptor_full_name sample.A) as Hname.
  { right. exists "pkg.B". split; [reflexivity | discriminate]. }
  destruct (exact_type_mismatch_rejection sample.api sample.A Empty (PyObj 4)
              false sample.w0 eq_refl (or_introl eq_refl) Hname)
    as (_ & Hempty & Hgarbage).
  split; [exact Hempty | exact (Hgarbage (Some 9%positive))].
Defined.

(** C8. Abstract-base unknown-schema rejection: when the handle is not
    None, is not backed by a native message, and reports a type name
    that [AllocateCProtoByName] cannot allocate, the Message [load]
    of a loader that owns nothing returns false and leaves the loader
    Empty; the world is unchanged, so nothing was allocated and
    [PyProtoCopyToCProto] was not called. *)
Theorem unknown_schema_rejection (api : proto_cast_util)
    (self : Loader) (src : handle) (convert : bool) (w : world) (name : string) :
  is_none src = false →
  PyProtoGetCppMessagePointer api src = None →
  PyProtoDescriptorName api src = Some name →
  AllocateCProtoByName api name = None →
  owned self = None →
  proto_caster_load_impl_Message.load api self src convert w = (Ok (false, Empty), w)
  ∧ ∀ dst, EvCopyToCProto src dst ∉ trace w →
           EvCopyToCProto src dst ∉
             trace (proto_caster_load_impl_Message.load api self src convert w).2.
Proof.
  intros Hn Hp Hname Halloc Ho.
  assert (proto_caster_load_impl_Message.load api self src convert w
          = (Ok (false, Empty), w)) as ->; [|done].
  unfold proto_caster_load_impl_Message.load, call_AllocateCProtoByName.
  rewrite Hn, Hp, Hname, Halloc, Ho. by run.
Qed.

Lemma unknown_schema_rejection_witness :
  proto_caster_load_impl_Message.load sample.api
    (default_constructed (Some 9%positive)) (PyObj 5) false sample.w0
  = (Ok (false, Empty), sample.w0).
Proof.
  apply (unknown_schema_rejection sample.api
           (default_constructed (Some 9%positive)) (PyObj 5) false sample.w0
           "pkg.Unregistered" eq_refl eq_refl eq_refl eq_refl eq_refl).
Defined.

(** C10. The Message loader has no schema-identity check on the
    zero-copy path: for a handle that is not None and for which
    [PyProtoGetCppMessagePointer] yields a pointer, its [load] returns
    true and borrows that pointer without reading it and without
    changing the world, whatever the message behind it is; the
    exact-type loader, given the same handle, returns false as soon as
    the reflection of the message differs from the expected one. *)
Theorem Message_load_borrows_unchecked (api : proto_cast_util) (T : ProtoType)
    (self : Loader) (src : handle) (convert : bool) (w : world) (p : ptr) :
  is_none src = false →
  PyProtoGetCppMessagePointer api src = Some p →
  proto_caster_load_impl_Message.load api self src convert w
  = (Ok (true, {| value := Some p; owned := owned self |}), w)
  ∧ ∀ m, heap w !! p = Some m →
         GetReflection m ≠ GetReflection (default_instance T) →
         proto_caster_load_impl.load api T self src convert w
         = (Ok (false, self), w).
Proof.
  intros Hn Hp. split.
  - unfold proto_caster_load_impl_Message.load. by rewrite Hn, Hp.
  - intros m Hm Hr. by eapply load_reflection_mismatch.
Qed.

Lemma Message_load_borrows_unchecked_witness :
  proto_caster_load_impl_Message.load sample.api Empty (PyObj 2) false sample.w0
  = (Ok (true, {| value := Some 2%positive; owned := None |}), sample.w0)
  ∧ proto_caster_load_impl.load sample.api sample.A Empty (PyObj 2) false sample.w0
    = (Ok (false, Empty), sample.w0).
Proof.
  destruct (Message_load_borrows_unchecked sample.api sample.A Empty (PyObj 2)
              false sample.w0 2%positive eq_refl eq_refl) as [H1 H2].
  split; [exact H1|].
  apply (H2 sample.A_other_pool); [reflexivity | discriminate].
Defined.

(** C2, at a concrete input.  Handle 2 is backed by the native message
    at address 2, whose reflection (11) is not the expected one (10),
    and it reports the expected type name pkg.A.  [load] returns false
    there and leaves the loader and the world as they were, while the
    fallback lines, run on the same handle, allocate a message at
    address 4 and call [PyProtoCopyToCProto]: [load] did not go on to
    them. *)
Lemma reflection_mismatch_no_fallback :
  PyProtoGetCppMessagePointer sample.api (PyObj 2) = Some 2%positive
  ∧ heap sample.w0 !! 2%positive = Some sample.A_other_pool
  ∧ GetReflection sample.A_other_pool ≠ GetReflection (default_instance sample.A)
  ∧ PyProtoDescriptorName sample.api (PyObj 2) = Some (descriptor_full_name sample.A)
  ∧ proto_caster_load_impl.load sample.api sample.A Empty (PyObj 2) false sample.w0
    = (Ok (false, Empty), sample.w0)
  ∧ trace (proto_caster_load_impl.load_fallback sample.api sample.A Empty
             (PyObj 2) sample.w0).2
    = [EvNew 4; EvCopyToCProto (PyObj 2) 4]
  ∧ proto_caster_load_impl.load sample.api sample.A Empty (PyObj 2) false sample.w0
    ≠ proto_caster_load_impl.load_fallback sample.api sample.A Empty
        (PyObj 2) sample.w0.
Proof.
  repeat split; try reflexivity; discriminate.
Qed.

(** C2, amended.  When [PyProtoGetCppMessagePointer] yields a pointer
    to a message whose reflection is not that of the expected default
    instance, the exact-type [load] returns false at once: the loader
    and the world are unchanged, so the type name is not consulted,
    nothing is allocated and nothing is copied. *)
Theorem reflection_mismatch_rejected (api : proto_cast_util) (T : ProtoType)
    (self : Loader) (src : handle) (convert : bool) (w : world)
    (p : ptr) (m : Message) :
  is_none src = false →
  PyProtoGetCppMessagePointer api src = Some p →
  heap w !! p = Some m →
  GetReflection m ≠ GetReflection (default_instance T) →
  proto_caster_load_impl.load api T self src convert w = (Ok (false, self), w).
Proof. apply load_reflection_mismatch. Qed.

Lemma reflection_mismatch_rejected_witness :
  proto_caster_load_impl.load sample.api sample.A Empty (PyObj 2) true sample.w0
  = (Ok (false, Empty), sample.w0).
Proof.
  apply (reflection_mismatch_rejected sample.api sample.A Empty (PyObj 2) true
           sample.w0 2%positive sample.A_other_pool eq_refl eq_refl eq_refl).
  discriminate.
Defined.

(** ** Promotion to an owned copy *)

Lemma as_unique_ptr_Message_eq :
  proto_caster_load_impl_Message.as_unique_ptr
  = proto_caster_load_impl.as_unique_ptr.
Proof. reflexivity. Qed.

Lemma copy_assign_live (dst src : ptr) (d s : Message) (w : world) :
  heap w !! src = Some s →
  heap w !! dst = Some d →
  copy_assign dst src w
  = (Ok tt, {| heap := <[dst := CopyFrom d s]> (heap w);
               pyheap := pyheap w;
               trace := trace w ++ [EvCopyFrom dst src] |}).
Proof.
  intros Hs Hd. unfold copy_assign. run.
  rewrite (deref_live _ _ _ Hs), (deref_live _ _ _ Hd).
  unfold log, store; simpl. by rewrite Hd.
Qed.

(** A borrowed value is promoted by one [New] and one assignment. *)
Lemma as_unique_ptr_borrowed (v : ptr) (m : Message) (w : world) :
  heap w !! v = Some m →
  proto_caster_load_impl.as_unique_ptr {| value := Some v; owned := None |} w
  = (Ok (Some (fresh (dom (heap w))), {| value := Some v; owned := None |}),
     allocated w m [EvCopyFrom (fresh (dom (heap w))) v]).
Proof.
  intros Hv.
  assert (fresh (dom (heap w)) ≠ v) as Hq by eauto with casters.
  unfold proto_caster_load_impl.as_unique_ptr, allocated; simpl.
  run. rewrite (deref_live _ _ _ Hv). unfold new.
  rewrite (copy_assign_live _ _ (New m) m); simpl.
  - by rewrite insert_insert_eq, CopyFrom_New, <- app_assoc.
  - by rewrite lookup_insert_ne.
  - by rewrite lookup_insert_eq.
Qed.

(** An owned copy is moved out as it is. *)
Lemma as_unique_ptr_owned (v o : ptr) (w : world) :
  proto_caster_load_impl.as_unique_ptr {| value := Some v; owned := Some o |} w
  = (Ok (Some o, {| value := Some v; owned := None |}), w).
Proof. reflexivity. Qed.

(** C6. Zero-copy aliasing: for a handle backed by a live native
    message of the expected reflection, the exact-type [load] of a
    loader that owns nothing returns true with the world unchanged (no
    allocation, no event), the state holding the borrowed pointer and
    a null owned copy; [as_unique_ptr] on that state then performs
    exactly one allocation, of a message of the same type at an address
    that was not live, followed by exactly one value copy from the
    borrowed pointer into it, and returns that new message, which
    equals the borrowed one. *)
Theorem zero_copy_aliasing (api : proto_cast_util) (T : ProtoType)
    (self : Loader) (src : handle) (convert : bool) (w : world)
    (p : ptr) (m : Message) :
  is_none src = false →
  PyProtoGetCppMessagePointer api src = Some p →
  heap w !! p = Some m →
  GetReflection m = GetReflection (default_instance T) →
  owned self = None →
  let st := {| value := Some p; owned := None |} in
  let q := fresh (dom (heap w)) in
  proto_caster_load_impl.load api T self src convert w = (Ok (true, st), w)
  ∧ (q ∉ dom (heap w))
  ∧ proto_caster_load_impl.as_unique_ptr st w
    = (Ok (Some q, st),
       {| heap := <[q := m]> (heap w);
          pyheap := pyheap w;
          trace := trace w ++ [EvNew q; EvCopyFrom q p] |}).
Proof.
  intros Hn Hp Hm Hr Ho st q. subst st q. split; [|split].
  - rewrite (load_alias api T self src convert w p m) by done.
    by rewrite Ho.
  - apply new_fresh.
  - by rewrite (as_unique_ptr_borrowed p m w Hm).
Qed.

Lemma zero_copy_aliasing_witness :
  proto_caster_load_impl.load sample.api sample.A
    (default_constructed (Some 9%positive)) (PyObj 1) false sample.w0
  = (Ok (true, {| value := Some 1%positive; owned := None |}), sample.w0)
  ∧ (proto_caster_load_impl.as_unique_ptr
       {| value := Some 1%positive; owned := None |} sample.w0).1
    = Ok (Some 4%positive, {| value := Some 1%positive; owned := None |})
  ∧ trace (proto_caster_load_impl.as_unique_ptr
             {| value := Some 1%positive; owned := None |} sample.w0).2
    = [EvNew 4; EvCopyFrom 4 1].
Proof.
  destruct (zero_copy_aliasing sample.api sample.A
              (default_constructed (Some 9%positive)) (PyObj 1) false sample.w0
              1%positive sample.a1 eq_refl eq_refl eq_refl eq_refl eq_refl)
    as (Hload & _ & Hpromote).
  split; [exact Hload|].
  rewrite Hpromote. split; reflexivity.
Defined.

(** C4, at concrete inputs.  A loader that borrows the message at
    address 1 returns a new message at address 4 from the first
    [as_unique_ptr] and another new message, at address 5, from the
    second; a loader that owns the message at address 1 returns that
    message from the first call and a new one, at address 4, from the
    second.  In both cases the second call produces a different
    object. *)
Lemma as_unique_ptr_twice_differs :
  (as_unique_ptr_twice {| value := Some 1%positive; owned := None |} sample.w0).1
  = Ok (Some 4%positive, Some 5%positive)
  ∧ (as_unique_ptr_twice {| value := Some 1%positive; owned := Some 1%positive |}
       sample.w0).1
    = Ok (Some 1%positive, Some 4%positive).
Proof. split; reflexivity. Qed.

(** C4, amended.  When an owned copy exists, [as_unique_ptr] returns
    that very object, not a copy of the borrowed pointer, and moves it
    out of the loader: [owned] is null afterwards, [value] is kept and
    the world is unchanged.  A further call on the loader so left,
    while [*value] is live, does not return the same object: it
    allocates a message at an address that was not live (so different
    from [value], and from the object handed out before if that is
    still live), copies [*value] into it and returns it; the result is
    not null. *)
Theorem promotion_moves_owned_out (self : Loader) (w : world) (v o : ptr) :
  value self = Some v →
  owned self = Some o →
  let moved := {| value := Some v; owned := None |} in
  let q := fresh (dom (heap w)) in
  proto_caster_load_impl.as_unique_ptr self w = (Ok (Some o, moved), w)
  ∧ ∀ m, heap w !! v = Some m →
         q ≠ v
         ∧ (is_Some (heap w !! o) → q ≠ o)
         ∧ proto_caster_load_impl.as_unique_ptr moved w
           = (Ok (Some q, moved),
              {| heap := <[q := m]> (heap w);
                 pyheap := pyheap w;
                 trace := trace w ++ [EvNew q; EvCopyFrom q v] |}).
Proof.
  intros Hv Ho moved q. subst moved q.
  destruct self as [sv so]; simpl in *; subst.
  split; [apply as_unique_ptr_owned|].
  intros m Hm. split; [|split].
  - eauto with casters.
  - apply new_not_live.
  - by rewrite (as_unique_ptr_borrowed v m w Hm).
Qed.

Lemma promotion_moves_owned_out_witness :
  proto_caster_load_impl.as_unique_ptr
    {| value := Some 1%positive; owned := Some 1%positive |} sample.w0
  = (Ok (Some 1%positive, {| value := Some 1%positive; owned := None |}), sample.w0)
  ∧ (proto_caster_load_impl.as_unique_ptr
       {| value := Some 1%positive; owned := None |} sample.w0).1
    = Ok (Some 4%positive, {| value := Some 1%positive; owned := None |}).
Proof.
  destruct (promotion_moves_owned_out
              {| value := Some 1%positive; owned := Some 1%positive |}
              sample.w0 1%positive 1%positive eq_refl eq_refl) as [H1 H2].
  split; [exact H1|].
  destruct (H2 sample.a1 eq_refl) as (_ & _ & ->). reflexivity.
Defined.

(** ** Failed loads *)

Lemma call_PyProtoCopyToCProto_live (api : proto_cast_util) (src : handle)
    (dst : ptr) (d : Message) (w : world) :
  heap w !! dst = Some d →
  call_PyProtoCopyToCProto api src dst w
  = (Ok (PyProtoCopyToCProto api src d).1,
     {| heap := <[dst := (PyProtoCopyToCProto api src d).2]> (heap w);
        pyheap := pyheap w;
        trace := trace w ++ [EvCopyToCProto src dst] |}).
Proof.
  intros Hd. unfold call_PyProtoCopyToCProto. run.
  rewrite (deref_live _ _ _ Hd). unfold log, store; simpl. by rewrite Hd.
Qed.

(** Allocation of [init] followed by population from [src]. *)
Lemma allocate_and_populate (api : proto_cast_util) (src : handle)
    (init : Message) (w : world) :
  call_PyProtoCopyToCProto api src (fresh (dom (heap w))) (new init w).2
  = (Ok (PyProtoCopyToCProto api src init).1,
     allocated w (PyProtoCopyToCProto api src init).2
       [EvCopyToCProto src (fresh (dom (heap w)))]).
Proof.
  rewrite (call_PyProtoCopyToCProto_live _ _ _ init).
  - unfold allocated; simpl. by rewrite insert_insert_eq, <- app_assoc.
  - simpl. by rewrite lookup_insert_eq.
Qed.

Section fallback_properties.
Variable api : proto_cast_util.
Variable T : ProtoType.

(** The fallback lines with a matching type name: the flag is that
    of [PyProtoCopyToCProto], and the new message is held whatever
    the flag. *)
Lemma load_fallback_populates (self : Loader) (src : handle) (w : world) :
  owned self = None →
  PyProtoDescriptorName api src = Some (descriptor_full_name T) →
  proto_caster_load_impl.load_fallback api T self src w
  = (Ok ((PyProtoCopyToCProto api src (New (default_instance T))).1,
         {| value := Some (fresh (dom (heap w)));
            owned := Some (fresh (dom (heap w))) |}),
     allocated w (PyProtoCopyToCProto api src (New (default_instance T))).2
       [EvCopyToCProto src (fresh (dom (heap w)))]).
Proof.
  intros Ho Hname. unfold proto_caster_load_impl.load_fallback.
  rewrite Hname, Ho. rewrite decide_False by auto. run.
  pose proof (allocate_and_populate api src (New (default_instance T)) w) as H.
  unfold new in *; simpl in *. by rewrite H.
Qed.

Lemma load_Message_populates (self : Loader) (src : handle) (convert : bool)
    (w : world) (name : string) (init : Message) :
  owned self = None →
  is_none src = false →
  PyProtoGetCppMessagePointer api src = None →
  PyProtoDescriptorName api src = Some name →
  AllocateCProtoByName api name = Some init →
  proto_caster_load_impl_Message.load api self src convert w
  = (Ok ((PyProtoCopyToCProto api src init).1,
         {| value := Some (fresh (dom (heap w)));
            owned := Some (fresh (dom (heap w))) |}),
     allocated w (PyProtoCopyToCProto api src init).2
       [EvCopyToCProto src (fresh (dom (heap w)))]).
Proof.
  intros Ho Hn Hp Hname Hinit.
  unfold proto_caster_load_impl_Message.load, call_AllocateCProtoByName.
  rewrite Hn, Hp, Hname, Hinit, Ho. run.
  pose proof (allocate_and_populate api src init w) as H.
  unfold new in *; simpl in *. by rewrite H.
Qed.
End fallback_properties.

(** C1, at a concrete input.  Handle 6 is a python-only pkg.A whose
    data does not parse.  The exact-type [load] into an Empty loader
    allocates a message at address 4, fails to populate it and returns
    false; afterwards [value] and [owned] both point to address 4,
    which is live and holds the partly populated message.  The Message
    loader does the same. *)
Lemma failed_population_keeps_object :
  (proto_caster_load_impl.load sample.api sample.A Empty (PyObj 6) false sample.w0).1
  = Ok (false, {| value := Some 4%positive; owned := Some 4%positive |})
  ∧ heap (proto_caster_load_impl.load sample.api sample.A Empty (PyObj 6) false
            sample.w0).2 !! 4%positive
    = Some (mkMessage 10 "pkg.A" "x=")
  ∧ (proto_caster_load_impl_Message.load sample.api Empty (PyObj 6) false sample.w0).1
    = Ok (false, {| value := Some 4%positive; owned := Some 4%positive |})
  ∧ {| value := Some 4%positive; owned := Some 4%positive |} ≠ Empty.
Proof. repeat split; try reflexivity; discriminate. Qed.

(** C1, amended.  A [load] that returns false, starting from a loader
    that owns nothing, ends in one of two ways.  Either it failed
    before allocating: the world is unchanged and the loader owns
    nothing; the exact-type loader has then written neither member, so
    its state is the one it had before the call, and the Message
    loader has set [value] to null, so its state is Empty.  Or a
    message was allocated at an address that was not live (a default
    instance of the expected type for the exact-type loader, what
    [AllocateCProtoByName] gives for the reported name for the Message
    loader) and [PyProtoCopyToCProto] returned false on it: the object
    is not discarded by [load], [value] and [owned] both point to it,
    it is live with whatever the failed population left in it, and the
    only events are that allocation and that call. *)
Theorem failed_load_state (api : proto_cast_util) (T : ProtoType)
    (self : Loader) (src : handle) (convert : bool) (w : world)
    (st' : Loader) (w' : world) :
  owned self = None →
  let q := fresh (dom (heap w)) in
  let held (init : Message) :=
    st' = {| value := Some q; owned := Some q |}
    ∧ (q ∉ dom (heap w))
    ∧ (PyProtoCopyToCProto api src init).1 = false
    ∧ w' = {| heap := <[q := (PyProtoCopyToCProto api src init).2]> (heap w);
              pyheap := pyheap w;
              trace := trace w ++ [EvNew q; EvCopyToCProto src q] |} in
  (proto_caster_load_impl.load api T self src convert w = (Ok (false, st'), w') →
   (w' = w ∧ st' = self)
   ∨ held (New (default_instance T)))
  ∧ (proto_caster_load_impl_Message.load api self src convert w
     = (Ok (false, st'), w') →
     (w' = w ∧ st' = Empty)
     ∨ ∃ name init,
         PyProtoDescriptorName api src = Some name
         ∧ AllocateCProtoByName api name = Some init
         ∧ held init).
Proof.
  intros Ho q held. subst q held. simpl. split; intros H.
  - destruct (is_none src) eqn:Hn.
    { rewrite load_none in H by done. discriminate. }
    destruct (PyProtoGetCppMessagePointer api src) as [p|] eqn:Hp.
    { unfold proto_caster_load_impl.load in H. rewrite Hn, Hp in H. run.
      unfold deref in H. destruct (heap w !! p); [|discriminate].
      case_decide; inversion H; subst. left. auto. }
    rewrite load_miss in H by done.
    destruct (PyProtoDescriptorName api src) as [name|] eqn:Hname.
    2:{ rewrite load_fallback_name_absent in H by done.
        inversion H; subst. left. auto. }
    destruct (decide (name = descriptor_full_name T)) as [-> | Hne].
    + rewrite load_fallback_populates in H by done.
      injection H as Hflag Hst Hw. subst st' w'. right.
      split; [done|]. split; [apply new_fresh|]. split; [exact Hflag|]. done.
    + rewrite (load_fallback_name_differs _ _ _ _ _ name) in H by done.
      inversion H; subst. left. auto.
  - destruct (is_none src) eqn:Hn.
    { rewrite load_Message_none in H by done. discriminate. }
    destruct (PyProtoGetCppMessagePointer api src) as [p|] eqn:Hp.
    { unfold proto_caster_load_impl_Message.load in H.
      rewrite Hn, Hp in H. discriminate. }
    destruct (PyProtoDescriptorName api src) as [name|] eqn:Hname.
    2:{ unfold proto_caster_load_impl_Message.load in H.
        rewrite Hn, Hp, Hname, Ho in H. inversion H; subst. left. auto. }
    destruct (AllocateCProtoByName api name) as [init|] eqn:Hinit.
    + rewrite (load_Message_populates _ _ _ _ _ name init) in H by done.
      injection H as Hflag Hst Hw. subst st' w'. right.
      exists name, init. split; [done|]. split; [done|].
      split; [done|]. split; [apply new_fresh|]. split; [exact Hflag|]. done.
    + unfold proto_caster_load_impl_Message.load, call_AllocateCProtoByName in H.
      rewrite Hn, Hp, Hname, Hinit, Ho in H. inversion H; subst. left. auto.
Qed.

Lemma failed_load_state_witness :
  let r := proto_caster_load_impl.load sample.api sample.A Empty (PyObj 6)
             false sample.w0 in
  (PyProtoCopyToCProto sample.api (PyObj 6) (New (default_instance sample.A))).1
  = false
  ∧ trace r.2 = [EvNew 4; EvCopyToCProto (PyObj 6) 4]
  ∧ heap r.2 !! 4%positive
    = Some (PyProtoCopyToCProto sample.api (PyObj 6)
              (New (default_instance sample.A))).2.
Proof.
  destruct (failed_load_state sample.api sample.A Empty (PyObj 6) false
              sample.w0 (mkLoader (Some 4%positive) (Some 4%positive))
              (proto_caster_load_impl.load sample.api sample.A Empty (PyObj 6)
                 false sample.w0).2 eq_refl) as [Hexact _].
  destruct (Hexact eq_refl) as [(_ & Hself) | (_ & _ & Hflag & Hw)].
  - discriminate Hself.
  - split; [exact Hflag|]. simpl. rewrite Hw. split; reflexivity.
Defined.

(** What the holder casters add: their local loader is destroyed when
    [load] returns, so the object of a failed population is deleted
    there. *)
Example holder_load_discards :
  (holder_load sample.api sample.A None (PyObj 6) false sample.w0).1
  = Ok (false, None)
  ∧ heap (holder_load sample.api sample.A None (PyObj 6) false sample.w0).2
    = heap sample.w0
  ∧ trace (holder_load sample.api sample.A None (PyObj 6) false sample.w0).2
    = [EvNew 4; EvCopyToCProto (PyObj 6) 4; EvDelete 4].
Proof. repeat split; reflexivity. Qed.

(** ** Casting *)

Lemma what_mentions :
  mentions "const reference" fast_cpp_cast_impl.what = true
  ∧ mentions "return_value_policy::copy" fast_cpp_cast_impl.what = true.
Proof. split; reflexivity. Qed.

Lemma spec_cast_copy (p : ptr) (m : Message) (parent : handle)
    (is_const : bool) (w : world) :
  heap w !! p = Some m →
  spec_GenericFastCppProtoCast p copy parent is_const w
  = (Ok (PyObj (fresh (dom (pyheap w)))),
     {| heap := heap w;
        pyheap := <[fresh (dom (pyheap w)) := PyCopy m]> (pyheap w);
        trace := trace w |}).
Proof.
  intros Hm. unfold spec_GenericFastCppProtoCast. run.
  by rewrite (deref_live _ _ _ Hm).
Qed.

(** C3, at a concrete input.  Casting the message at address 1 as a
    const source with policy [reference_internal] throws the type
    error, and the text of that error does not contain the name of the
    policy that was requested. *)
Lemma type_error_omits_reference_internal :
  fast_cpp_cast_impl.cast_impl sample.api (Some 1%positive) reference_internal
    Py_None true sample.w0
  = (Throw (type_error fast_cpp_cast_impl.what), sample.w0)
  ∧ mentions (policy_name reference_internal) fast_cpp_cast_impl.what = false.
Proof. split; reflexivity. Qed.

(** C3, amended.  A non-null pointer cast as a const source with
    policy [reference] or [reference_internal], through [cast_impl] or
    through the [const ProtoType *] overload of [cast], throws a type
    error and changes nothing.  The text is the same for both
    policies: it says that a const reference cannot be returned, so it
    contains the name of the policy [reference], and it suggests
    [return_value_policy::copy].  With policy [copy] the same pointer
    passes the check, the cast being the generic cast for policy
    [copy]; with the generic cast as the spec describes it and a live
    source it succeeds: it returns a new python object that holds a
    copy of the message, and the native heap is untouched. *)
Theorem const_reference_cast_rejected (api : proto_cast_util) (p : ptr)
    (policy : return_value_policy) (parent : handle) (w : world) :
  policy = reference ∨ policy = reference_internal →
  fast_cpp_cast_impl.cast_impl api (Some p) policy parent true w
  = (Throw (type_error fast_cpp_cast_impl.what), w)
  ∧ type_caster.cast_const_ptr api (Some p) policy parent w
    = (Throw (type_error fast_cpp_cast_impl.what), w)
  ∧ mentions "const reference" fast_cpp_cast_impl.what = true
  ∧ mentions "return_value_policy::copy" fast_cpp_cast_impl.what = true
  ∧ fast_cpp_cast_impl.cast_impl api (Some p) copy parent true w
    = GenericFastCppProtoCast api p copy parent true w
  ∧ type_caster.cast_const_ptr api (Some p) copy parent w
    = GenericFastCppProtoCast api p copy parent true w
  ∧ mentions (policy_name reference) fast_cpp_cast_impl.what = true
  ∧ mentions (policy_name copy) fast_cpp_cast_impl.what = true
  ∧ (GenericFastCppProtoCast api = spec_GenericFastCppProtoCast →
     ∀ m, heap w !! p = Some m →
          let a := fresh (dom (pyheap w)) in
          let w1 := {| heap := heap w;
                       pyheap := <[a := PyCopy m]> (pyheap w);
                       trace := trace w |} in
          fast_cpp_cast_impl.cast_impl api (Some p) copy parent true w
          = (Ok (PyObj a), w1)
          ∧ type_caster.cast_const_ptr api (Some p) copy parent w
            = (Ok (PyObj a), w1)
          ∧ py_read (PyObj a) w1 = Some m
          ∧ pyheap w !! a = None).
Proof.
  intros Hpol.
  assert (fast_cpp_cast_impl.cast_impl api (Some p) policy parent true w
          = (Throw (type_error fast_cpp_cast_impl.what), w)) as Himpl.
  { by destruct Hpol as [-> | ->]. }
  split; [exact Himpl|]. split.
  { unfold type_caster.cast_const_ptr, proto_caster.cast_const_ptr.
    by rewrite resolve_automatic_reference. }
  split; [apply what_mentions|]. split; [apply what_mentions|].
  split; [done|]. split; [done|].
  split; [reflexivity|]. split; [reflexivity|].
  intros Hcast m Hm a w1. subst a w1.
  assert (type_caster.cast_const_ptr api (Some p) copy parent w
          = fast_cpp_cast_impl.cast_impl api (Some p) copy parent true w)
    as -> by reflexivity.
  assert (fast_cpp_cast_impl.cast_impl api (Some p) copy parent true w
          = spec_GenericFastCppProtoCast p copy parent true w) as ->.
  { simpl. by rewrite Hcast. }
  rewrite (spec_cast_copy p m parent true w Hm).
  split; [done|]. split; [done|]. split.
  - unfold py_read. simpl. by rewrite lookup_insert_eq.
  - apply not_elem_of_dom, is_fresh.
Qed.

Lemma const_reference_cast_rejected_witness :
  type_caster.cast_const_ptr sample.api (Some 1%positive) reference (PyObj 7)
    sample.w0
  = (Throw (type_error fast_cpp_cast_impl.what), sample.w0)
  ∧ (type_caster.cast_const_ptr sample.api (Some 1%positive) copy (PyObj 7)
       sample.w0).1
    = Ok (PyObj 1)
  ∧ py_read (PyObj 1)
      (type_caster.cast_const_ptr sample.api (Some 1%positive) copy (PyObj 7)
         sample.w0).2
    = Some sample.a1.
Proof.
  destruct (const_reference_cast_rejected sample.api 1%positive reference
              (PyObj 7) sample.w0 (or_introl eq_refl))
    as (_ & Hthrow & _ & _ & _ & _ & _ & _ & Hok).
  destruct (Hok eq_refl sample.a1 eq_refl) as (_ & Hcopy & Hread & _).
  split; [exact Hthrow|]. rewrite Hcopy. split; [reflexivity | exact Hread].
Defined.

(** ** The shared holder *)

(** The shared holder casts its referent with policy [copy] and as a
    const source, whatever policy was asked for. *)
Lemma copyable_holder_cast_copy (api : proto_cast_util) (p : ptr)
    (policy : return_value_policy) (parent : handle) (w : world) :
  copyable_holder_caster.cast api (Some p) policy parent w
  = GenericFastCppProtoCast api p copy parent true w.
Proof. reflexivity. Qed.

Lemma py_new_distinct (w : world) (a : positive) :
  is_Some (pyheap w !! a) → fresh (dom (pyheap w)) ≠ a.
Proof.
  intros Hlive Heq. apply (is_fresh (dom (pyheap w))). rewrite Heq.
  by apply elem_of_dom.
Qed.

(** C9. Shared adapter never aliases.  The cast of a shared holder
    with a non-null referent is the generic cast of the referent with
    policy [copy], whatever policy was requested.  With the generic
    cast as the spec describes it, two such casts of one live native
    pointer, under any two requested policies, return two different
    python objects, each holding a copy of the message and none of the
    two an alias of it: a python-side mutation of either leaves the
    other and the native message as they were, and a native mutation
    of the message leaves both as they were. *)
Theorem shared_adapter_never_aliases (api : proto_cast_util) (p : ptr)
    (m : Message) (w : world) (pol1 pol2 : return_value_policy)
    (parent1 parent2 : handle) :
  GenericFastCppProtoCast api = spec_GenericFastCppProtoCast →
  heap w !! p = Some m →
  (∀ pol parent w0,
     copyable_holder_caster.cast api (Some p) pol parent w0
     = GenericFastCppProtoCast api p copy parent true w0)
  ∧ ∃ h1 h2 w1 w2,
      copyable_holder_caster.cast api (Some p) pol1 parent1 w = (Ok h1, w1)
      ∧ copyable_holder_caster.cast api (Some p) pol2 parent2 w1 = (Ok h2, w2)
      ∧ h1 ≠ h2
      ∧ py_read h1 w2 = Some m
      ∧ py_read h2 w2 = Some m
      ∧ heap w2 = heap w
      ∧ ∀ c,
          py_read h1 (py_write h1 c w2) = Some (set_contents c m)
          ∧ py_read h2 (py_write h1 c w2) = Some m
          ∧ heap (py_write h1 c w2) !! p = Some m
          ∧ py_read h2 (py_write h2 c w2) = Some (set_contents c m)
          ∧ py_read h1 (py_write h2 c w2) = Some m
          ∧ heap (py_write h2 c w2) !! p = Some m
          ∧ py_read h1 (native_write p c w2) = Some m
          ∧ py_read h2 (native_write p c w2) = Some m.
Proof.
  intros Hcast Hm. split; [intros; apply copyable_holder_cast_copy|].
  set (a1 := fresh (dom (pyheap w))).
  set (w1 := {| heap := heap w; pyheap := <[a1 := PyCopy m]> (pyheap w);
                trace := trace w |}).
  set (a2 := fresh (dom (pyheap w1))).
  set (w2 := {| heap := heap w1; pyheap := <[a2 := PyCopy m]> (pyheap w1);
                trace := trace w1 |}).
  assert (a2 ≠ a1) as Hne.
  { apply py_new_distinct. simpl. rewrite lookup_insert_eq. eauto. }
  assert (pyheap w2 !! a1 = Some (PyCopy m)) as H1.
  { simpl. by rewrite lookup_insert_ne, lookup_insert_eq. }
  assert (pyheap w2 !! a2 = Some (PyCopy m)) as H2.
  { simpl. by rewrite lookup_insert_eq. }
  exists (PyObj a1), (PyObj a2), w1, w2.
  rewrite !copyable_holder_cast_copy, Hcast.
  split; [by apply spec_cast_copy|].
  split; [by apply (spec_cast_copy p m parent2 true w1)|].
  split; [congruence|].
  split; [by unfold py_read; rewrite H1|].
  split; [by unfold py_read; rewrite H2|].
  split; [done|].
  intros c. unfold py_read, py_write, native_write. rewrite H1, H2. simpl.
  rewrite !lookup_insert_eq.
  rewrite (lookup_insert_ne _ a2 a1), (lookup_insert_ne _ a1 a2) by done.
  rewrite !lookup_insert_eq.
  rewrite (lookup_insert_ne _ a2 a1), lookup_insert_eq by done.
  by rewrite Hm.
Qed.

Lemma shared_adapter_never_aliases_witness :
  ∃ h1 h2 w1 w2,
    copyable_holder_caster.cast sample.api (Some 1%positive) reference
      (PyObj 7) sample.w0 = (Ok h1, w1)
    ∧ copyable_holder_caster.cast sample.api (Some 1%positive)
        reference_internal (PyObj 7) w1 = (Ok h2, w2)
    ∧ h1 ≠ h2
    ∧ py_read h2 (py_write h1 "x=5" w2) = Some sample.a1
    ∧ heap (py_write h1 "x=5" w2) !! 1%positive = Some sample.a1.
Proof.
  destruct (shared_adapter_never_aliases sample.api 1%positive sample.a1
              sample.w0 reference reference_internal (PyObj 7) (PyObj 7)
              eq_refl eq_refl)
    as (_ & h1 & h2 & w1 & w2 & Hc1 & Hc2 & Hne & _ & _ & _ & Hind).
  exists h1, h2, w1, w2.
  destruct (Hind "x=5") as (_ & Hr & Hh & _).
  repeat split; assumption.
Defined.

(** For contrast, the reference overload with policy [reference] does
    alias: a python-side mutation of its result lands in the native
    message. *)
Example reference_cast_aliases :
  let r := type_caster.cast_ref sample.api 1%positive reference Py_None sample.w0 in
  r.1 = Ok (PyObj 1)
  ∧ pyheap r.2 !! 1%positive = Some (PyAlias 1 None)
  ∧ heap (py_write (PyObj 1) "x=5" r.2) !! 1%positive
    = Some (mkMessage 10 "pkg.A" "x=5").
Proof. repeat split; reflexivity. Qed.

(** * Further properties of the loaders *)

Lemma preserves_refl (w : world) : preserves w w.
Proof. by split. Qed.

Lemma preserves_allocated (w : world) (m : Message) (evs : list event) :
  preserves w (allocated w m evs).
Proof.
  split; [done|]. intros p x Hp. simpl.
  rewrite lookup_insert_ne; [done|]. apply new_not_live. eauto.
Qed.

#[export] Hint Resolve preserves_refl preserves_allocated : casters.

(** The worlds a [load] can end in, whatever it returns: the one it
    started from, or that world with one new message on which
    [PyProtoCopyToCProto] was called. *)
Lemma load_world (api : proto_cast_util) (T : ProtoType) (self : Loader)
    (src : handle) (convert : bool) (w w' : world) (r : result (bool * Loader)) :
  owned self = None →
  proto_caster_load_impl.load api T self src convert w = (r, w') →
  w' = w
  ∨ ∃ x, w' = allocated w x [EvCopyToCProto src (fresh (dom (heap w)))].
Proof.
  intros Ho H.
  destruct (is_none src) eqn:Hn.
  { rewrite load_none in H by done. injection H as _ <-. by left. }
  destruct (PyProtoGetCppMessagePointer api src) as [p|] eqn:Hp.
  { unfold proto_caster_load_impl.load in H. rewrite Hn, Hp in H. run.
    unfold deref in H. destruct (heap w !! p).
    - case_decide; injection H as _ <-; by left.
    - injection H as _ <-. by left. }
  rewrite load_miss in H by done.
  destruct (PyProtoDescriptorName api src) as [name|] eqn:Hname.
  2:{ rewrite load_fallback_name_absent in H by done.
      injection H as _ <-. by left. }
  destruct (decide (name = descriptor_full_name T)) as [-> | Hne].
  - rewrite load_fallback_populates in H by done.
    injection H as _ <-. right. eauto.
  - rewrite (load_fallback_name_differs _ _ _ _ _ name) in H by done.
    injection H as _ <-. by left.
Qed.

Lemma load_Message_world (api : proto_cast_util) (self : Loader)
    (src : handle) (convert : bool) (w w' : world) (r : result (bool * Loader)) :
  owned self = None →
  proto_caster_load_impl_Message.load api self src convert w = (r, w') →
  w' = w
  ∨ ∃ x, w' = allocated w x [EvCopyToCProto src (fresh (dom (heap w)))].
Proof.
  intros Ho H.
  destruct (is_none src) eqn:Hn.
  { rewrite load_Message_none in H by done. injection H as _ <-. by left. }
  destruct (PyProtoGetCppMessagePointer api src) as [p|] eqn:Hp.
  { unfold proto_caster_load_impl_Message.load in H. rewrite Hn, Hp in H.
    injection H as _ <-. by left. }
  destruct (PyProtoDescriptorName api src) as [name|] eqn:Hname.
  2:{ unfold proto_caster_load_impl_Message.load in H.
      rewrite Hn, Hp, Hname in H. injection H as _ <-. by left. }
  destruct (AllocateCProtoByName api name) as [init|] eqn:Hinit.
  - rewrite (load_Message_populates _ _ _ _ _ name init) in H by done.
    injection H as _ <-. right. eauto.
  - unfold proto_caster_load_impl_Message.load, call_AllocateCProtoByName in H.
    rewrite Hn, Hp, Hname, Hinit, Ho in H. injection H as _ <-. by left.
Qed.

(** X1. Loading never disturbs what exists.  Whatever a [load] of
    either loader returns (true, false, or a fault on a dead pointer),
    starting from a loader that owns nothing, the python heap is
    unchanged and every native message that was live is still live
    with the same contents: the aliased message is only read, and the
    only write goes to the message [load] allocated itself. *)
Theorem load_preserves_world (api : proto_cast_util) (T : ProtoType)
    (self : Loader) (src : handle) (convert : bool) (w w' : world)
    (r : result (bool * Loader)) :
  owned self = None →
  (proto_caster_load_impl.load api T self src convert w = (r, w')
   ∨ proto_caster_load_impl_Message.load api self src convert w = (r, w')) →
  preserves w w'.
Proof.
  intros Ho [H | H].
  - destruct (load_world _ _ _ _ _ _ _ _ Ho H) as [-> | [x ->]];
      auto with casters.
  - destruct (load_Message_world _ _ _ _ _ _ _ Ho H) as [-> | [x ->]];
      auto with casters.
Qed.

Lemma load_preserves_world_witness :
  heap (proto_caster_load_impl.load sample.api sample.A Empty (PyObj 3) false
          sample.w0).2 !! 1%positive
  = Some sample.a1.
Proof.
  destruct (load_preserves_world sample.api sample.A Empty (PyObj 3) false
              sample.w0 _ _ eq_refl (or_introl eq_refl)) as [_ H].
  apply H. reflexivity.
Defined.

Section load_cases.
Variable api : proto_cast_util.
Variable T : ProtoType.
Implicit Types (self : Loader) (src : handle) (w : world).

Lemma load_alias_dangling self src convert w p :
  is_none src = false →
  PyProtoGetCppMessagePointer api src = Some p →
  heap w !! p = None →
  proto_caster_load_impl.load api T self src convert w = (Fault, w).
Proof.
  intros Hn Hp Hm. unfold proto_caster_load_impl.load.
  rewrite Hn, Hp. run. by rewrite (deref_dangling _ _ Hm).
Qed.

Lemma load_Message_alias self src convert w p :
  is_none src = false →
  PyProtoGetCppMessagePointer api src = Some p →
  proto_caster_load_impl_Message.load api self src convert w
  = (Ok (true, {| value := Some p; owned := owned self |}), w).
Proof.
  intros Hn Hp. unfold proto_caster_load_impl_Message.load. by rewrite Hn, Hp.
Qed.

Lemma load_Message_name_absent self src convert w :
  is_none src = false →
  PyProtoGetCppMessagePointer api src = None →
  PyProtoDescriptorName api src = None →
  proto_caster_load_impl_Message.load api self src convert w
  = (Ok (false, {| value := None; owned := owned self |}), w).
Proof.
  intros Hn Hp Hname. unfold proto_caster_load_impl_Message.load.
  by rewrite Hn, Hp, Hname.
Qed.

Lemma load_Message_unknown self src convert w name :
  owned self = None →
  is_none src = false →
  PyProtoGetCppMessagePointer api src = None →
  PyProtoDescriptorName api src = Some name →
  AllocateCProtoByName api name = None →
  proto_caster_load_impl_Message.load api self src convert w
  = (Ok (false, Empty), w).
Proof.
  intros Ho Hn Hp Hname Halloc.
  unfold proto_caster_load_impl_Message.load, call_AllocateCProtoByName.
  rewrite Hn, Hp, Hname, Halloc, Ho. by run.
Qed.
End load_cases.

(** Splits on the path the exact-type [load] in [H] takes and rewrites
    [H] to the result of that path. *)
Ltac exact_load_cases api T self src w H :=
  let Hn := fresh "Hn" in
  let Hp := fresh "Hp" in
  let Hm := fresh "Hm" in
  let Hr := fresh "Hr" in
  let Hname := fresh "Hname" in
  let p := fresh "p" in
  let m := fresh "m" in
  let name := fresh "name" in
  destruct (is_none src) eqn:Hn;
  [ rewrite load_none in H by done
  | destruct (PyProtoGetCppMessagePointer api src) as [p|] eqn:Hp;
    [ destruct (heap w !! p) as [m|] eqn:Hm;
      [ destruct (decide (GetReflection m = GetReflection (default_instance T)))
          as [Hr | Hr];
        [ rewrite (load_alias api T self src _ w p m) in H by done
        | rewrite (load_reflection_mismatch api T self src _ w p m) in H by done ]
      | rewrite (load_alias_dangling api T self src _ w p) in H by done ]
    | rewrite load_miss in H by done;
      destruct (PyProtoDescriptorName api src) as [name|] eqn:Hname;
      [ destruct (decide (name = descriptor_full_name T)) as [-> | Hr];
        [ rewrite load_fallback_populates in H by done
        | rewrite (load_fallback_name_differs _ _ _ _ _ name) in H by done ]
      | rewrite load_fallback_name_absent in H by done ] ] ].

(** The same for the Message [load]. *)
Ltac Message_load_cases api self src w H :=
  let Hn := fresh "Hn" in
  let Hp := fresh "Hp" in
  let Hname := fresh "Hname" in
  let Hinit := fresh "Hinit" in
  let p := fresh "p" in
  let name := fresh "name" in
  let init := fresh "init" in
  destruct (is_none src) eqn:Hn;
  [ rewrite load_Message_none in H by done
  | destruct (PyProtoGetCppMessagePointer api src) as [p|] eqn:Hp;
    [ rewrite (load_Message_alias api self src _ w p) in H by done
    | destruct (PyProtoDescriptorName api src) as [name|] eqn:Hname;
      [ destruct (AllocateCProtoByName api name) as [init|] eqn:Hinit;
        [ rewrite (load_Message_populates _ _ _ _ _ name init) in H by done
        | rewrite (load_Message_unknown api self src _ w name) in H by done ]
      | rewrite load_Message_name_absent in H by done ] ] ].

(** X2. The state a [load] leaves.  For either loader, started on a
    loader that owns nothing: whenever [load] returns, the owned copy
    is null or is the very message [value] points to; and when it
    returns true, [value] is null exactly when the handle was None. *)
Theorem load_state_invariant (api : proto_cast_util) (T : ProtoType)
    (self : Loader) (src : handle) (convert : bool) (w w' : world)
    (ok : bool) (st' : Loader) :
  owned self = None →
  (proto_caster_load_impl.load api T self src convert w = (Ok (ok, st'), w')
   ∨ proto_caster_load_impl_Message.load api self src convert w
     = (Ok (ok, st'), w')) →
  (owned st' = None ∨ owned st' = value st')
  ∧ (ok = true → (value st' = None ↔ is_none src = true)).
Proof.
  intros Ho [H | H].
  - exact_load_cases api T self src w H;
      simplify_eq; simpl; rewrite ?Ho;
      (split; [auto | intros; split; congruence]).
  - Message_load_cases api self src w H;
      simplify_eq; simpl; rewrite ?Ho;
      (split; [auto | intros; split; congruence]).
Qed.

Lemma load_state_invariant_witness :
  (owned (mkLoader (Some 4%positive) (Some 4%positive)) = None
   ∨ owned (mkLoader (Some 4%positive) (Some 4%positive))
     = value (mkLoader (Some 4%positive) (Some 4%positive)))
  ∧ (true = true →
     (value (mkLoader (Some 4%positive) (Some 4%positive)) = None
      ↔ is_none (PyObj 3) = true)).
Proof.
  apply (load_state_invariant sample.api sample.A Empty (PyObj 3) false
           sample.w0
           (proto_caster_load_impl.load sample.api sample.A Empty (PyObj 3)
              false sample.w0).2
           true (mkLoader (Some 4%positive) (Some 4%positive)) eq_refl).
  left. reflexivity.
Defined.

(** X3. What a successful exact-type load points to.  When the
    exact-type [load] of a loader that owns nothing returns true with
    a non-null [value], that pointer is live; and when it is borrowed
    (no owned copy), the message behind it has the reflection of the
    expected type, so the cast of the pointer to [const ProtoType *]
    is applied to messages of that type only. *)
Theorem exact_load_value_live (api : proto_cast_util) (T : ProtoType)
    (self : Loader) (src : handle) (convert : bool) (w w' : world)
    (st' : Loader) (p : ptr) :
  owned self = None →
  proto_caster_load_impl.load api T self src convert w = (Ok (true, st'), w') →
  value st' = Some p →
  ∃ m, heap w' !! p = Some m
       ∧ (owned st' = None →
          GetReflection m = GetReflection (default_instance T)).
Proof.
  intros Ho H Hv.
  exact_load_cases api T self src w H; simplify_eq; simpl in *; simplify_eq.
  - exists m. auto.
  - eexists. split; [by rewrite lookup_insert_eq | discriminate].
Qed.

Lemma exact_load_value_live_witness :
  ∃ m, heap sample.w0 !! 1%positive = Some m
       ∧ (owned (mkLoader (Some 1%positive) None) = None →
          GetReflection m = GetReflection (default_instance sample.A)).
Proof.
  apply (exact_load_value_live sample.api sample.A Empty (PyObj 1) false
           sample.w0 sample.w0 (mkLoader (Some 1%positive) None) 1%positive
           eq_refl eq_refl eq_refl).
Defined.

(** X4. Materialization by the exact-type loader.  For a handle that is
    not None, is not backed by a native message and reports exactly
    the full name of the expected type, [load] of a loader that owns
    nothing allocates one default message of that type at an address
    that was not live, calls [PyProtoCopyToCProto] on it once, and
    returns the flag of that call; [value] and [owned] both point to
    the new message, which holds what the call left in it. *)
Theorem exact_load_materializes (api : proto_cast_util) (T : ProtoType)
    (self : Loader) (src : handle) (convert : bool) (w : world) :
  is_none src = false →
  PyProtoGetCppMessagePointer api src = None →
  PyProtoDescriptorName api src = Some (descriptor_full_name T) →
  owned self = None →
  let q := fresh (dom (heap w)) in
  let r := PyProtoCopyToCProto api src (New (default_instance T)) in
  (q ∉ dom (heap w))
  ∧ proto_caster_load_impl.load api T self src convert w
    = (Ok (r.1, {| value := Some q; owned := Some q |}),
       {| heap := <[q := r.2]> (heap w);
          pyheap := pyheap w;
          trace := trace w ++ [EvNew q; EvCopyToCProto src q] |}).
Proof.
  intros Hn Hp Hname Ho q r. subst q r.
  split; [apply new_fresh|].
  rewrite load_miss by done. by rewrite load_fallback_populates.
Qed.

Lemma exact_load_materializes_witness :
  (proto_caster_load_impl.load sample.api sample.A Empty (PyObj 3) false
     sample.w0).1
  = Ok (true, {| value := Some 4%positive; owned := Some 4%positive |})
  ∧ heap (proto_caster_load_impl.load sample.api sample.A Empty (PyObj 3) false
            sample.w0).2 !! 4%positive
    = Some (mkMessage 10 "pkg.A" "x=7").
Proof.
  destruct (exact_load_materializes sample.api sample.A Empty (PyObj 3) false
              sample.w0 eq_refl eq_refl eq_refl eq_refl) as [_ ->].
  split; reflexivity.
Defined.

(** X5. Materialization by the Message loader.  For a handle that is
    not None and is not backed by a native message, the Message [load]
    allocates the message that [AllocateCProtoByName] gives for the
    type name the handle reports (there is no expected name to compare
    it with), calls [PyProtoCopyToCProto] on it once and returns the
    flag of that call; [value] and [owned] both point to the new
    message. *)
Theorem Message_load_materializes (api : proto_cast_util)
    (self : Loader) (src : handle) (convert : bool) (w : world)
    (name : string) (init : Message) :
  is_none src = false →
  PyProtoGetCppMessagePointer api src = None →
  PyProtoDescriptorName api src = Some name →
  AllocateCProtoByName api name = Some init →
  owned self = None →
  let q := fresh (dom (heap w)) in
  let r := PyProtoCopyToCProto api src init in
  (q ∉ dom (heap w))
  ∧ proto_caster_load_impl_Message.load api self src convert w
    = (Ok (r.1, {| value := Some q; owned := Some q |}),
       {| heap := <[q := r.2]> (heap w);
          pyheap := pyheap w;
          trace := trace w ++ [EvNew q; EvCopyToCProto src q] |}).
Proof.
  intros Hn Hp Hname Hinit Ho q r. subst q r.
  split; [apply new_fresh|].
  by rewrite (load_Message_populates api self src convert w name init).
Qed.

Lemma Message_load_materializes_witness :
  (proto_caster_load_impl_Message.load sample.api Empty (PyObj 4) false
     sample.w0).1
  = Ok (true, {| value := Some 4%positive; owned := Some 4%positive |})
  ∧ heap (proto_caster_load_impl_Message.load sample.api Empty (PyObj 4) false
            sample.w0).2 !! 4%positive
    = Some (mkMessage 20 "pkg.B" "y=8").
Proof.
  destruct (Message_load_materializes sample.api Empty (PyObj 4) false
              sample.w0 "pkg.B" (mkMessage 20 "pkg.B" EmptyString)
              eq_refl eq_refl eq_refl eq_refl eq_refl) as [_ ->].
  split; reflexivity.
Defined.

Lemma as_unique_ptr_dangling (v : ptr) (w : world) :
  heap w !! v = None →
  proto_caster_load_impl.as_unique_ptr {| value := Some v; owned := None |} w
  = (Fault, w).
Proof.
  intros Hv. unfold proto_caster_load_impl.as_unique_ptr; simpl. run.
  by rewrite (deref_dangling _ _ Hv).
Qed.

(** X6. What [as_unique_ptr] leaves behind.  Whenever
    [as_unique_ptr] returns: with a null [value] the result is null and
    nothing changes; with a non-null [value] the result is non-null,
    [value] is kept and the loader owns nothing afterwards, the result
    being either the copy the loader owned (world unchanged) or, for a
    borrowed value, a message at an address that was not live which
    equals [*value].  In every case the python heap and every native
    message that was live are unchanged. *)
Theorem as_unique_ptr_postcondition (self st' : Loader) (w w' : world)
    (r : option ptr) :
  (proto_caster_load_impl.as_unique_ptr self w = (Ok (r, st'), w')
   ∨ proto_caster_load_impl_Message.as_unique_ptr self w = (Ok (r, st'), w')) →
  (value self = None → r = None ∧ st' = self ∧ w' = w)
  ∧ (∀ v, value self = Some v →
          st' = {| value := Some v; owned := None |}
          ∧ ∃ q, r = Some q
                 ∧ (owned self = Some q ∧ w' = w
                    ∨ owned self = None ∧ (q ∉ dom (heap w))
                      ∧ is_Some (heap w !! v)
                      ∧ heap w' !! q = heap w !! v))
  ∧ preserves w w'.
Proof.
  intros [H | H]; [|rewrite as_unique_ptr_Message_eq in H];
    destruct self as [sv so]; (destruct sv as [v|]; simpl;
    [ destruct so as [o|];
      [ rewrite as_unique_ptr_owned in H; simplify_eq;
        (split; [discriminate|]); (split; [|auto with casters]);
        intros v' Hv'; simplify_eq; (split; [done|]); exists o; auto
      | destruct (heap w !! v) as [m|] eqn:Hm;
        [ rewrite (as_unique_ptr_borrowed v m w Hm) in H; simplify_eq;
          (split; [discriminate|]); (split; [|auto with casters]);
          intros v' Hv'; simplify_eq; (split; [done|]);
          eexists; (split; [done|]); right;
          (split; [done|]); (split; [apply new_fresh|]);
          (split; [by rewrite Hm|]);
          simpl; by rewrite lookup_insert_eq, Hm
        | rewrite (as_unique_ptr_dangling v w Hm) in H; discriminate ] ]
    | unfold proto_caster_load_impl.as_unique_ptr in H; simpl in H;
      run; simplify_eq; (split; [done|]); (split; [|auto with casters]);
      intros v Hv; discriminate ]).
Qed.

Lemma as_unique_ptr_postcondition_witness :
  preserves sample.w0
    (proto_caster_load_impl.as_unique_ptr (mkLoader (Some 1%positive) None)
       sample.w0).2.
Proof.
  apply (as_unique_ptr_postcondition (mkLoader (Some 1%positive) None)
           (mkLoader (Some 1%positive) None) sample.w0 _ (Some 4%positive)
           (or_introl eq_refl)).
Defined.

(** * Properties of the holder casters *)

Lemma not_live_fresh (w : world) : heap w !! fresh (dom (heap w)) = None.
Proof. apply not_elem_of_dom, is_fresh. Qed.

(** Deleting the message that was just allocated gives the heap back. *)
Lemma delete_allocated (w : world) (m : Message) (evs : list event) :
  delete_ptr (fresh (dom (heap w))) (allocated w m evs)
  = (Ok tt, {| heap := heap w;
               pyheap := pyheap w;
               trace := trace (allocated w m evs)
                        ++ [EvDelete (fresh (dom (heap w)))] |}).
Proof.
  unfold delete_ptr, allocated; simpl. rewrite lookup_insert_eq.
  by rewrite delete_insert_id by apply not_live_fresh.
Qed.

Section holder_properties.
Variable api : proto_cast_util.
Variable T : ProtoType.
Implicit Types (src : handle) (w : world) (garbage : option ptr).

(** [holder_load] after a [load] that returned false. *)
Lemma holder_load_after_false garbage src convert w st w1 :
  proto_caster_load_impl.load api T (default_constructed garbage) src convert w
  = (Ok (false, st), w1) →
  holder_load api T garbage src convert w
  = match unique_ptr_reset (owned st) w1 with
    | (Ok _, w2) => (Ok (false, None), w2)
    | (Throw e, w2) => (Throw e, w2)
    | (Fault, w2) => (Fault, w2)
    end.
Proof. intros H. unfold holder_load. run. by rewrite H. Qed.

(** [holder_load] after a [load] that returned true. *)
Lemma holder_load_after_true garbage src convert w st w1 u st2 w2 :
  proto_caster_load_impl.load api T (default_constructed garbage) src convert w
  = (Ok (true, st), w1) →
  proto_caster_load_impl.as_unique_ptr st w1 = (Ok (u, st2), w2) →
  owned st2 = None →
  holder_load api T garbage src convert w = (Ok (true, Some u), w2).
Proof.
  intros H Hu Ho. unfold holder_load. run. rewrite H. simpl.
  rewrite Hu. simpl. by rewrite Ho.
Qed.

Lemma holder_load_Message_after_false garbage src convert w st w1 :
  proto_caster_load_impl_Message.load api (default_constructed garbage) src convert w
  = (Ok (false, st), w1) →
  holder_load_Message api garbage src convert w
  = match unique_ptr_reset (owned st) w1 with
    | (Ok _, w2) => (Ok (false, None), w2)
    | (Throw e, w2) => (Throw e, w2)
    | (Fault, w2) => (Fault, w2)
    end.
Proof. intros H. unfold holder_load_Message. run. by rewrite H. Qed.

Lemma holder_load_Message_after_true garbage src convert w st w1 u st2 w2 :
  proto_caster_load_impl_Message.load api (default_constructed garbage) src convert w
  = (Ok (true, st), w1) →
  proto_caster_load_impl.as_unique_ptr st w1 = (Ok (u, st2), w2) →
  owned st2 = None →
  holder_load_Message api garbage src convert w = (Ok (true, Some u), w2).
Proof.
  intros H Hu Ho. unfold holder_load_Message. run. rewrite H. simpl.
  rewrite as_unique_ptr_Message_eq, Hu. simpl. by rewrite Ho.
Qed.
End holder_properties.

(** What the body shared by the holder [load]s went through when it
    returned: the local loader's [load], then either its destructor
    alone, or [as_unique_ptr] and the destructor. *)
Lemma holder_body_inv (ld : M (bool * Loader)) (w w' : world) (b : bool)
    (h : option (option ptr)) :
  (r ← ld;
   if negb r.1 then
     unique_ptr_reset (owned r.2);;
     mret (false, None)
   else
     u ← proto_caster_load_impl.as_unique_ptr r.2;
     unique_ptr_reset (owned u.2);;
     mret (true, Some u.1)) w = (Ok (b, h), w') →
  ∃ st w1,
    ld w = (Ok (b, st), w1)
    ∧ if b then
        ∃ u st2 w2,
          proto_caster_load_impl.as_unique_ptr st w1 = (Ok (u, st2), w2)
          ∧ unique_ptr_reset (owned st2) w2 = (Ok tt, w')
          ∧ h = Some u
      else
        unique_ptr_reset (owned st) w1 = (Ok tt, w') ∧ h = None.
Proof.
  unfold mbind, M_bind, bind, mret, M_ret, ret.
  destruct (ld w) as [[[b0 st]|e|] w1] eqn:Hl; simpl; [|discriminate..].
  destruct b0; simpl.
  - destruct (proto_caster_load_impl.as_unique_ptr st w1)
      as [[[u st2]|e|] w2] eqn:Hu; simpl; [|discriminate..].
    destruct (unique_ptr_reset (owned st2) w2) as [[[]|e|] w3] eqn:Hd;
      intros; simplify_eq.
    exists st, w1. split; [done|]. exists u, st2, w2. auto.
  - destruct (unique_ptr_reset (owned st) w1) as [[[]|e|] w3] eqn:Hd;
      intros; simplify_eq.
    exists st, w1. split; [done|]. auto.
Qed.

(** X7. A failed holder load leaves nothing behind.  When the [load]
    of a holder caster (for a generated type or for Message) returns
    false, no holder is produced and the native heap and the python
    heap are what they were: a message allocated for a population that
    failed has been deleted by the destructor of the local loader. *)
Theorem holder_load_failure_no_leak (api : proto_cast_util) (T : ProtoType)
    (garbage : option ptr) (src : handle) (convert : bool) (w w' : world)
    (h : option (option ptr)) :
  (holder_load api T garbage src convert w = (Ok (false, h), w')
   ∨ holder_load_Message api garbage src convert w = (Ok (false, h), w')) →
  h = None ∧ heap w' = heap w ∧ pyheap w' = pyheap w.
Proof.
  intros [H | H]; apply holder_body_inv in H;
    destruct H as (st & w1 & Hl & Hd & ->); (split; [done|]).
  - exact_load_cases api T (default_constructed garbage) src w Hl;
      simplify_eq; simpl in Hd; run; simplify_eq; try done.
    rewrite delete_allocated in Hd. by simplify_eq.
  - Message_load_cases api (default_constructed garbage) src w Hl;
      simplify_eq; simpl in Hd; run; simplify_eq; try done.
    rewrite delete_allocated in Hd. by simplify_eq.
Qed.

Lemma holder_load_failure_no_leak_witness :
  heap (holder_load sample.api sample.A (Some 9%positive) (PyObj 6) false
          sample.w0).2
  = heap sample.w0.
Proof.
  destruct (holder_load_failure_no_leak sample.api sample.A (Some 9%positive)
              (PyObj 6) false sample.w0
              (holder_load sample.api sample.A (Some 9%positive) (PyObj 6)
                 false sample.w0).2
              None (or_introl eq_refl)) as (_ & H & _).
  exact H.
Defined.

(** Closes the goal of a holder that received the message at the fresh
    address. *)
Ltac holder_owns_fresh :=
  split; [split; congruence|];
  split; [|auto with casters];
  intros ? ?; simplify_eq;
  split; [apply new_fresh | simpl; rewrite lookup_insert_eq; eauto].

(** X8. A holder always receives an object of its own.  When the
    [load] of a holder caster returns true, the holder is null exactly
    when the handle was None; otherwise it holds a message at an
    address that was not live before the call, so nothing else refers
    to it, and that message is live afterwards.  The python heap and
    every native message that was live before, the aliased one
    included, are unchanged. *)
Theorem holder_load_exclusive (api : proto_cast_util) (T : ProtoType)
    (garbage : option ptr) (src : handle) (convert : bool) (w w' : world)
    (h : option (option ptr)) :
  (holder_load api T garbage src convert w = (Ok (true, h), w')
   ∨ holder_load_Message api garbage src convert w = (Ok (true, h), w')) →
  ∃ u, h = Some u
       ∧ (u = None ↔ is_none src = true)
       ∧ (∀ q, u = Some q → (q ∉ dom (heap w)) ∧ is_Some (heap w' !! q))
       ∧ preserves w w'.
Proof.
  intros [H | H]; apply holder_body_inv in H;
    destruct H as (st & w1 & Hl & u & st2 & w2 & Hu & Hd & ->); exists u;
    (split; [done|]).
  - exact_load_cases api T (default_constructed garbage) src w Hl;
      simplify_eq; simpl in *.
    + unfold proto_caster_load_impl.as_unique_ptr in Hu; simpl in *.
      run. simplify_eq. simpl in *. run. simplify_eq.
      split; [done|]. split; [discriminate | auto with casters].
    + rewrite (as_unique_ptr_borrowed _ _ _ Hm) in Hu. simplify_eq.
      simpl in *. run. simplify_eq. holder_owns_fresh.
    + rewrite as_unique_ptr_owned in Hu. simplify_eq.
      simpl in *. run. simplify_eq. holder_owns_fresh.
  - Message_load_cases api (default_constructed garbage) src w Hl;
      simplify_eq; simpl in *.
    + unfold proto_caster_load_impl.as_unique_ptr in Hu; simpl in *.
      run. simplify_eq. simpl in *. run. simplify_eq.
      split; [done|]. split; [discriminate | auto with casters].
    + match type of Hu with
      | proto_caster_load_impl.as_unique_ptr _ ?w0 = _ =>
          destruct (heap w0 !! p) as [m|] eqn:Hm
      end.
      2:{ rewrite (as_unique_ptr_dangling _ _ Hm) in Hu. discriminate. }
      rewrite (as_unique_ptr_borrowed _ _ _ Hm) in Hu. simplify_eq.
      simpl in *. run. simplify_eq. holder_owns_fresh.
    + rewrite as_unique_ptr_owned in Hu. simplify_eq.
      simpl in *. run. simplify_eq. holder_owns_fresh.
Qed.

Lemma holder_load_exclusive_witness :
  ∃ u, Some (Some 4%positive) = Some u
       ∧ (u = None ↔ is_none (PyObj 1) = true)
       ∧ (∀ q, u = Some q →
               (q ∉ dom (heap sample.w0))
               ∧ is_Some (heap (holder_load sample.api sample.A None (PyObj 1)
                                  false sample.w0).2 !! q))
       ∧ preserves sample.w0
           (holder_load sample.api sample.A None (PyObj 1) false sample.w0).2.
Proof.
  apply (holder_load_exclusive sample.api sample.A None (PyObj 1) false
           sample.w0 _ (Some (Some 4%positive))).
  left. reflexivity.
Defined.

(** X9. Holder load of an aliased message copies it.  For a handle
    backed by a live native message of the expected reflection, the
    holder [load] returns true with a holder for a new message, at an
    address that was not live, equal to the aliased one; it makes
    exactly one allocation and one copy, deletes nothing, and the
    aliased message stays where it was. *)
Theorem holder_load_alias_copies (api : proto_cast_util) (T : ProtoType)
    (garbage : option ptr) (src : handle) (convert : bool) (w : world)
    (p : ptr) (m : Message) :
  is_none src = false →
  PyProtoGetCppMessagePointer api src = Some p →
  heap w !! p = Some m →
  GetReflection m = GetReflection (default_instance T) →
  let q := fresh (dom (heap w)) in
  q ≠ p
  ∧ holder_load api T garbage src convert w
    = (Ok (true, Some (Some q)),
       {| heap := <[q := m]> (heap w);
          pyheap := pyheap w;
          trace := trace w ++ [EvNew q; EvCopyFrom q p] |}).
Proof.
  intros Hn Hp Hm Hr q. subst q. split; [eauto with casters|].
  apply (holder_load_after_true api T garbage src convert w
           {| value := Some p; owned := None |} w _
           {| value := Some p; owned := None |}).
  - by rewrite (load_alias api T _ src convert w p m).
  - by rewrite (as_unique_ptr_borrowed p m w Hm).
  - done.
Qed.

Lemma holder_load_alias_copies_witness :
  (holder_load sample.api sample.A (Some 9%positive) (PyObj 1) false sample.w0).1
  = Ok (true, Some (Some 4%positive))
  ∧ heap (holder_load sample.api sample.A (Some 9%positive) (PyObj 1) false
            sample.w0).2 !! 4%positive
    = Some sample.a1.
Proof.
  destruct (holder_load_alias_copies sample.api sample.A (Some 9%positive)
              (PyObj 1) false sample.w0 1%positive sample.a1
              eq_refl eq_refl eq_refl eq_refl) as [_ ->].
  split; reflexivity.
Defined.

(** X10. Holder load of a python-only message moves the materialized
    object.  For a handle that is not None, is not backed by a native
    message and reports the expected type name, when
    [PyProtoCopyToCProto] succeeds the holder receives the very
    message that [load] allocated and populated: one allocation, one
    population, no further copy and no deletion. *)
Theorem holder_load_moves_materialized (api : proto_cast_util) (T : ProtoType)
    (garbage : option ptr) (src : handle) (convert : bool) (w : world) :
  is_none src = false →
  PyProtoGetCppMessagePointer api src = None →
  PyProtoDescriptorName api src = Some (descriptor_full_name T) →
  (PyProtoCopyToCProto api src (New (default_instance T))).1 = true →
  let q := fresh (dom (heap w)) in
  holder_load api T garbage src convert w
  = (Ok (true, Some (Some q)),
     {| heap := <[q := (PyProtoCopyToCProto api src (New (default_instance T))).2]>
                  (heap w);
        pyheap := pyheap w;
        trace := trace w ++ [EvNew q; EvCopyToCProto src q] |}).
Proof.
  intros Hn Hp Hname Hok q. subst q.
  apply (holder_load_after_true api T garbage src convert w
           {| value := Some (fresh (dom (heap w)));
              owned := Some (fresh (dom (heap w))) |}
           (allocated w (PyProtoCopyToCProto api src (New (default_instance T))).2
              [EvCopyToCProto src (fresh (dom (heap w)))])
           _ {| value := Some (fresh (dom (heap w))); owned := None |}).
  - rewrite load_miss, load_fallback_populates by done. by rewrite Hok.
  - apply as_unique_ptr_owned.
  - done.
Qed.

Lemma holder_load_moves_materialized_witness :
  (holder_load sample.api sample.A None (PyObj 3) false sample.w0).1
  = Ok (true, Some (Some 4%positive))
  ∧ trace (holder_load sample.api sample.A None (PyObj 3) false sample.w0).2
    = [EvNew 4; EvCopyToCProto (PyObj 3) 4].
Proof.
  rewrite (holder_load_moves_materialized sample.api sample.A None (PyObj 3)
             false sample.w0 eq_refl eq_refl eq_refl eq_refl).
  split; reflexivity.
Defined.

(** X11. The uninitialized [value] of the local loader is never read.
    The holder [load]s give the same result and the same world
    whatever the [value] member of their default-constructed local
    loader happens to hold. *)
Theorem holder_load_ignores_garbage (api : proto_cast_util) (T : ProtoType)
    (g1 g2 : option ptr) (src : handle) (convert : bool) (w : world) :
  holder_load api T g1 src convert w = holder_load api T g2 src convert w
  ∧ holder_load_Message api g1 src convert w
    = holder_load_Message api g2 src convert w.
Proof.
  split.
  - unfold holder_load. run.
    destruct (is_none src) eqn:Hn; [by rewrite !load_none by done|].
    destruct (PyProtoGetCppMessagePointer api src) as [p|] eqn:Hp.
    { destruct (heap w !! p) as [m|] eqn:Hm.
      - destruct (decide (GetReflection m = GetReflection (default_instance T))).
        + by rewrite !(load_alias api T _ src convert w p m) by done.
        + by rewrite !(load_reflection_mismatch api T _ src convert w p m)
            by done.
      - by rewrite !(load_alias_dangling api T _ src convert w p) by done. }
    rewrite !load_miss by done.
    destruct (PyProtoDescriptorName api src) as [name|] eqn:Hname.
    + destruct (decide (name = descriptor_full_name T)) as [-> | Hne].
      * by rewrite !load_fallback_populates by done.
      * by rewrite !(load_fallback_name_differs _ _ _ _ _ name) by done.
    + by rewrite !load_fallback_name_absent by done.
  - unfold holder_load_Message. run.
    destruct (is_none src) eqn:Hn; [by rewrite !load_Message_none by done|].
    destruct (PyProtoGetCppMessagePointer api src) as [p|] eqn:Hp.
    { by rewrite !(load_Message_alias api _ src convert w p) by done. }
    destruct (PyProtoDescriptorName api src) as [name|] eqn:Hname.
    + destruct (AllocateCProtoByName api name) as [init|] eqn:Hinit.
      * by rewrite !(load_Message_populates _ _ _ _ _ name init) by done.
      * by rewrite !(load_Message_unknown api _ src convert w name) by done.
    + by rewrite !load_Message_name_absent by done.
Qed.

(** * Properties of the conversion operators *)

Lemma cast_op_rvalue_borrowed (v : ptr) (m : Message) (w : world) :
  heap w !! v = Some m →
  proto_caster.cast_op_rvalue {| value := Some v; owned := None |} w
  = (Ok (fresh (dom (heap w)),
         {| value := Some v; owned := Some (fresh (dom (heap w))) |}),
     allocated w m [EvCopyFrom (fresh (dom (heap w))) v]).
Proof.
  intros Hv.
  assert (fresh (dom (heap w)) ≠ v) as Hq by eauto with casters.
  unfold proto_caster.cast_op_rvalue, allocated; simpl.
  run. rewrite (deref_live _ _ _ Hv). unfold new.
  rewrite (copy_assign_live _ _ (New m) m); simpl.
  - by rewrite insert_insert_eq, CopyFrom_New, <- app_assoc.
  - by rewrite lookup_insert_ne.
  - by rewrite lookup_insert_eq.
Qed.

(** X12. The rvalue conversion keeps its copy.  When
    [operator ProtoType &&] returns, the loader owns the message it
    returned and [value] is what it was; nothing that was live has
    changed; and converting again returns the same message without
    touching the world.  It throws [reference_cast_error] exactly when
    [value] is null. *)
Theorem cast_op_rvalue_idempotent (self : Loader) (w : world) :
  (value self = None →
   proto_caster.cast_op_rvalue self w = (Throw reference_cast_error, w))
  ∧ ∀ p st' w',
      proto_caster.cast_op_rvalue self w = (Ok (p, st'), w') →
      owned st' = Some p
      ∧ value st' = value self
      ∧ preserves w w'
      ∧ proto_caster.cast_op_rvalue st' w' = (Ok (p, st'), w').
Proof.
  split.
  { intros Hv. unfold proto_caster.cast_op_rvalue. by rewrite Hv. }
  intros p st' w' H. destruct self as [sv so].
  destruct sv as [v|]; [|discriminate].
  destruct so as [o|].
  - unfold proto_caster.cast_op_rvalue in H; simpl in H. run. simplify_eq.
    auto with casters.
  - destruct (heap w !! v) as [m|] eqn:Hm.
    + rewrite (cast_op_rvalue_borrowed v m w Hm) in H. simplify_eq.
      auto with casters.
    + unfold proto_caster.cast_op_rvalue in H; simpl in H. run.
      rewrite (deref_dangling _ _ Hm) in H. discriminate.
Qed.

(** X13. Conversions after a successful load.  After a [load] of
    either loader that returned true on a loader that owns nothing:
    if the handle was None, the pointer conversion gives a null
    pointer and the reference conversion throws
    [reference_cast_error]; otherwise both give the same non-null
    pointer and nothing is thrown. *)
Theorem conversions_after_load (api : proto_cast_util) (T : ProtoType)
    (self : Loader) (src : handle) (convert : bool) (w w' : world)
    (st' : Loader) :
  owned self = None →
  (proto_caster_load_impl.load api T self src convert w = (Ok (true, st'), w')
   ∨ proto_caster_load_impl_Message.load api self src convert w
     = (Ok (true, st'), w')) →
  if is_none src then
    proto_caster.cast_op_const_ptr st' = None
    ∧ proto_caster.cast_op_const_ref st' w' = (Throw reference_cast_error, w')
  else
    ∃ p, proto_caster.cast_op_const_ptr st' = Some p
         ∧ proto_caster.cast_op_const_ref st' w' = (Ok p, w').
Proof.
  intros Ho [H | H].
  - exact_load_cases api T self src w H; simplify_eq; simpl; eauto.
  - Message_load_cases api self src w H; simplify_eq; simpl; eauto.
Qed.

Lemma conversions_after_load_witness :
  proto_caster.cast_op_const_ptr Empty = None
  ∧ proto_caster.cast_op_const_ref Empty sample.w0
    = (Throw reference_cast_error, sample.w0).
Proof.
  apply (conversions_after_load sample.api sample.A Empty Py_None false
           sample.w0 sample.w0 Empty eq_refl (or_introl eq_refl)).
Defined.

Lemma cast_op_rvalue_idempotent_witness :
  proto_caster.cast_op_rvalue Empty sample.w0
  = (Throw reference_cast_error, sample.w0)
  ∧ proto_caster.cast_op_rvalue (mkLoader (Some 1%positive) (Some 4%positive))
      (proto_caster.cast_op_rvalue (mkLoader (Some 1%positive) None) sample.w0).2
    = (Ok (4%positive, mkLoader (Some 1%positive) (Some 4%positive)),
       (proto_caster.cast_op_rvalue (mkLoader (Some 1%positive) None)
          sample.w0).2).
Proof.
  split.
  - apply (cast_op_rvalue_idempotent Empty sample.w0). reflexivity.
  - apply (cast_op_rvalue_idempotent (mkLoader (Some 1%positive) None)
             sample.w0).
    reflexivity.
Defined.

(** * Properties of the casts *)

Lemma with_unique_ptr_null {A} (body : M A) (w : world) :
  with_unique_ptr None body w = body w.
Proof. unfold with_unique_ptr. by destruct (body w). Qed.

Lemma with_unique_ptr_live {A} (body : M A) (p : ptr) (m : Message)
    (w w1 : world) (r : result A) :
  body w = (r, w1) →
  heap w1 !! p = Some m →
  with_unique_ptr (Some p) body w
  = (r, {| heap := delete p (heap w1);
           pyheap := pyheap w1;
           trace := trace w1 ++ [EvDelete p] |}).
Proof.
  intros Hb Hm. unfold with_unique_ptr. rewrite Hb. simpl.
  unfold delete_ptr. by rewrite Hm.
Qed.

(** X14. A const source is never handed on for aliasing.  For a
    non-null pointer, the [const ProtoType *] overload of [cast]
    either throws the type error, which it does exactly for the
    policies [reference] and [reference_internal], or is the generic
    cast as a const source with a policy that is none of [reference],
    [reference_internal], [automatic] and [automatic_reference]; the
    [ProtoType const &] overload is the generic cast with policy
    [copy] whatever was requested. *)
Theorem const_source_never_aliased (api : proto_cast_util) (p : ptr)
    (policy : return_value_policy) (parent : handle) (w : world) :
  (((policy = reference ∨ policy = reference_internal)
    ∧ type_caster.cast_const_ptr api (Some p) policy parent w
      = (Throw (type_error fast_cpp_cast_impl.what), w))
   ∨ (policy ≠ reference ∧ policy ≠ reference_internal
      ∧ ∃ pol', pol' ≠ reference ∧ pol' ≠ reference_internal
                ∧ pol' ≠ automatic ∧ pol' ≠ automatic_reference
                ∧ type_caster.cast_const_ptr api (Some p) policy parent w
                  = GenericFastCppProtoCast api p pol' parent true w))
  ∧ type_caster.cast_const_ref api p policy parent w
    = GenericFastCppProtoCast api p copy parent true w.
Proof.
  split; [|done].
  destruct policy.
  - right. do 2 (split; [discriminate|]). exists copy. by repeat split.
  - right. do 2 (split; [discriminate|]). exists copy. by repeat split.
  - right. do 2 (split; [discriminate|]). exists take_ownership.
    by repeat split.
  - right. do 2 (split; [discriminate|]). exists copy. by repeat split.
  - right. do 2 (split; [discriminate|]). exists move. by repeat split.
  - left. split; [auto | reflexivity].
  - left. split; [auto | reflexivity].
Qed.

(** X15. [take_ownership] consumes the source.  The [ProtoType *]
    overload with policy [take_ownership] runs the generic cast with
    policy [copy] on a source that is not const, and then deletes the
    source, whether the generic cast returned or threw: whatever the
    generic cast gives is the result, and the source is no longer
    live. *)
Theorem take_ownership_consumes (api : proto_cast_util) (p : ptr)
    (parent : handle) (w w1 : world) (r : result handle) (m : Message) :
  GenericFastCppProtoCast api p copy parent false w = (r, w1) →
  heap w1 !! p = Some m →
  type_caster.cast_ptr api (Some p) take_ownership parent w
  = (r, {| heap := delete p (heap w1);
           pyheap := pyheap w1;
           trace := trace w1 ++ [EvDelete p] |})
  ∧ heap (type_caster.cast_ptr api (Some p) take_ownership parent w).2 !! p
    = None.
Proof.
  intros Hg Hm.
  assert (type_caster.cast_ptr api (Some p) take_ownership parent w
          = (r, {| heap := delete p (heap w1);
                   pyheap := pyheap w1;
                   trace := trace w1 ++ [EvDelete p] |})) as ->.
  { unfold type_caster.cast_ptr, proto_caster.cast_ptr. simpl.
    by apply (with_unique_ptr_live _ p m). }
  split; [done|]. simpl. apply lookup_delete_eq.
Qed.

Lemma take_ownership_consumes_witness :
  (type_caster.cast_ptr sample.api (Some 1%positive) take_ownership Py_None
     sample.w0).1
  = Ok (PyObj 1)
  ∧ heap (type_caster.cast_ptr sample.api (Some 1%positive) take_ownership
            Py_None sample.w0).2 !! 1%positive
    = None
  ∧ py_read (PyObj 1)
      (type_caster.cast_ptr sample.api (Some 1%positive) take_ownership
         Py_None sample.w0).2
    = Some sample.a1.
Proof.
  destruct (take_ownership_consumes sample.api 1%positive Py_None sample.w0
              _ _ sample.a1 eq_refl eq_refl) as [Hc Hgone].
  split; [by rewrite Hc|]. split; [exact Hgone|].
  rewrite Hc. reflexivity.
Defined.

(** X16. The default policies copy.  On every overload that looks at
    the policy, [automatic] and [automatic_reference] give exactly what
    [copy] gives, for null and non-null sources alike.  The rvalue
    overload does not look at the policy and is the generic cast with
    policy [copy] on a source that is not const; the move-only holder
    does not look at it either and is the generic cast with policy
    [copy], on a const source exactly when the element type of the
    holder is const. *)
Theorem default_policies_copy (api : proto_cast_util) (src : option ptr)
    (p : ptr) (policy requested : return_value_policy) (parent : handle)
    (const_element : bool) (w : world) :
  policy = automatic ∨ policy = automatic_reference →
  type_caster.cast_const_ptr api src policy parent w
  = type_caster.cast_const_ptr api src copy parent w
  ∧ type_caster.cast_ptr api src policy parent w
    = type_caster.cast_ptr api src copy parent w
  ∧ type_caster.cast_ref api p policy parent w
    = type_caster.cast_ref api p copy parent w
  ∧ type_caster.cast_ref api p policy parent w
    = GenericFastCppProtoCast api p copy parent false w
  ∧ type_caster.cast_rvalue api p requested parent w
    = GenericFastCppProtoCast api p copy parent false w
  ∧ move_only_holder_caster.cast api const_element (Some p) requested parent w
    = GenericFastCppProtoCast api p copy parent const_element w.
Proof. intros [-> | ->]; by destruct const_element. Qed.

Lemma default_policies_copy_witness :
  type_caster.cast_ref sample.api 1%positive automatic_reference Py_None sample.w0
  = GenericFastCppProtoCast sample.api 1%positive copy Py_None false sample.w0
  ∧ move_only_holder_caster.cast sample.api true (Some 1%positive) reference
      Py_None sample.w0
    = GenericFastCppProtoCast sample.api 1%positive copy Py_None true sample.w0.
Proof.
  destruct (default_policies_copy sample.api None 1%positive automatic_reference
              reference Py_None true sample.w0 (or_intror eq_refl))
    as (_ & _ & _ & Href & _ & Hholder).
  split; [exact Href | exact Hholder].
Defined.

(** X17. An explicit policy on a source that is not const is passed
    on.  For a non-null pointer and a policy other than [automatic],
    [automatic_reference] and [take_ownership], the [ProtoType *] and
    [ProtoType &] overloads are the generic cast with that very policy
    on a source that is not const: nothing is thrown by the caster and
    nothing is deleted, so [reference] and [reference_internal] do
    reach the generic cast here. *)
Theorem explicit_policy_passed_on (api : proto_cast_util) (p : ptr)
    (policy : return_value_policy) (parent : handle) (w : world) :
  policy ≠ automatic →
  policy ≠ automatic_reference →
  policy ≠ take_ownership →
  type_caster.cast_ptr api (Some p) policy parent w
  = GenericFastCppProtoCast api p policy parent false w
  ∧ type_caster.cast_ref api p policy parent w
    = GenericFastCppProtoCast api p policy parent false w.
Proof.
  intros Ha Har Ht.
  destruct policy; try congruence;
    (split; [|reflexivity]);
    unfold type_caster.cast_ptr, proto_caster.cast_ptr; simpl;
    by rewrite with_unique_ptr_null.
Qed.

Lemma explicit_policy_passed_on_witness :
  type_caster.cast_ptr sample.api (Some 1%positive) reference Py_None sample.w0
  = GenericFastCppProtoCast sample.api 1%positive reference Py_None false
      sample.w0.
Proof.
  apply (explicit_policy_passed_on sample.api 1%positive reference Py_None
           sample.w0); discriminate.
Defined.

(** X18. The native cast base always copies.  With [native_cast_impl]
    as the cast base, the const and non-const reference and pointer
    overloads and the rvalue overload give, for a non-null source and
    whatever policy is requested ([take_ownership] on the
    [ProtoType *] overload apart), the result of [GenericProtoCast]
    with policy [copy] on a source that is not const; the type error
    for const sources is never thrown. *)
Theorem native_cast_always_copies (api : proto_cast_util) (p : ptr)
    (policy : return_value_policy) (parent : handle) (w : world) :
  let native := native_cast_impl.cast_impl api in
  let copied := GenericProtoCast api p copy parent false w in
  proto_caster.cast_const_ptr native (Some p) policy parent w = copied
  ∧ proto_caster.cast_const_ref native p policy parent w = copied
  ∧ proto_caster.cast_ref native p policy parent w = copied
  ∧ proto_caster.cast_rvalue native p policy parent w = copied
  ∧ (policy ≠ take_ownership →
     proto_caster.cast_ptr native (Some p) policy parent w = copied).
Proof.
  intros native copied. subst native copied.
  repeat split; try reflexivity.
  intros Hpol. unfold proto_caster.cast_ptr.
  destruct policy; try congruence; simpl; by rewrite with_unique_ptr_null.
Qed.

Lemma native_cast_always_copies_witness :
  proto_caster.cast_ptr (native_cast_impl.cast_impl sample.api)
    (Some 1%positive) reference Py_None sample.w0
  = GenericProtoCast sample.api 1%positive copy Py_None false sample.w0.
Proof.
  apply (native_cast_always_copies sample.api 1%positive reference Py_None
           sample.w0).
  discriminate.
Defined.
